(** * Crypto dashboard: the quote cache / fallback chain and the narrative cache

    A shallow embedding of
    - [hooks/useCryptoPrice] (the second half of [src/App.tsx]): the Market
      Data Fetcher with its Freshness Cache [cache] and Fallback Store
      [lastSuccessfulPrices];
    - [services/aiAnalysis.ts]: the Narrative Fetcher with its Analysis Cache;
    - [components/AIAnalysis.tsx]: the handler that shows a narrative or an
      error.

    Conventions.  A JavaScript number is a rational ([Q]); NaN and the
    infinities are not represented.  A JavaScript string is held as the bytes
    of its UTF-8 encoding.  [Date.now()] is an integer number of
    milliseconds ([Z]).  An [await] is a sequential step; a rejected promise
    and a [throw] are both [Throw].  What the code only prints
    ([console.log], [console.warn], [console.error]) is left out. *)

From Stdlib Require Import ZArith QArith Qabs String Ascii List Lia.
From stdpp Require Import gmap strings pretty.

Set Warnings "-register-all".

Open Scope string_scope.
Open Scope Z_scope.

(** ** The fragment of JavaScript the code relies on *)
Module JS.

(** Values read out of a parsed JSON body, plus [undefined]. An object is
    the list of its own properties. *)
Inductive value : Type :=
| VUndefined
| VNull
| VBool (b : bool)
| VNum (q : Q)
| VStr (s : string)
| VArr (items : list value)
| VObj (props : list (string * value)).

(** What can be thrown. [Error msg] is [new Error(msg)]; the other three are
    raised by the runtime (reading a property of [null]/[undefined] or
    calling a non-function; [Response.json()] on a body that is not JSON;
    [fetch] rejecting).  Their message text is engine specific. *)
Inductive error : Type :=
| Error (msg : string)
| TypeError
| SyntaxError
| NetworkError.

Inductive exn (A : Type) : Type :=
| Ok (a : A)
| Throw (e : error).
Arguments Ok {A} a.
Arguments Throw {A} e.

Definition bind {A B : Type} (m : exn A) (k : A -> exn B) : exn B :=
  match m with
  | Ok a => k a
  | Throw e => Throw e
  end.

(** ToBoolean *)
Definition truthy (v : value) : bool :=
  match v with
  | VUndefined | VNull => false
  | VBool b => b
  | VNum q => negb (Qeq_bool q 0)
  | VStr s => negb (String.eqb s "")
  | VArr _ | VObj _ => true
  end.

(** [a || b] *)
Definition or_else (a b : value) : value := if truthy a then a else b.

Fixpoint own_property (k : string) (props : list (string * value)) : value :=
  match props with
  | [] => VUndefined
  | (k', v) :: rest => if String.eqb k k' then v else own_property k rest
  end.

(** [v.k] for the property names the code reads from JSON data; none of
    them is a built-in member of a string, number, boolean or array. *)
Definition get (v : value) (k : string) : exn value :=
  match v with
  | VUndefined | VNull => Throw TypeError
  | VObj props => Ok (own_property k props)
  | VBool _ | VNum _ | VStr _ | VArr _ => Ok VUndefined
  end.

(** [v?.k] *)
Definition get_opt (v : value) (k : string) : exn value :=
  match v with
  | VUndefined | VNull => Ok VUndefined
  | _ => get v k
  end.

(** [v === 'lit'] *)
Definition is_string (v : value) (lit : string) : bool :=
  match v with
  | VStr s => String.eqb s lit
  | _ => false
  end.

(** Upper-casing of the letters a-z: what [toUpperCase] does to a string
    made of ASCII characters only. *)
Definition upper_ascii (c : ascii) : ascii :=
  let n := N_of_ascii c in
  if ((97 <=? n) && (n <=? 122))%N then ascii_of_N (n - 32) else c.

Fixpoint upper (s : string) : string :=
  match s with
  | EmptyString => EmptyString
  | String c rest => String (upper_ascii c) (upper rest)
  end.

(** [v.toUpperCase()]: only a string has the method. The case mapping is
    the runtime's (it follows the Unicode tables the engine ships), so it
    is passed in as [up]. *)
Definition toUpperCase (up : string -> string) (v : value) : exn value :=
  match v with
  | VStr s => Ok (VStr (up s))
  | _ => Throw TypeError
  end.

(** The white space [String.prototype.trim] removes (WhiteSpace and
    LineTerminator of the language): first the six ASCII characters, then the
    code points that take two and three bytes in UTF-8. *)
Definition is_white (c : ascii) : bool :=
  let n := N_of_ascii c in
  ((n =? 9) || (n =? 10) || (n =? 11) || (n =? 12) || (n =? 13) || (n =? 32))%N.

(** U+00A0 *)
Definition is_white2 (c1 c2 : ascii) : bool :=
  ((N_of_ascii c1 =? 194) && (N_of_ascii c2 =? 160))%N.

(** U+1680, U+2000 to U+200A, U+2028, U+2029, U+202F, U+205F, U+3000,
    U+FEFF *)
Definition is_white3 (c1 c2 c3 : ascii) : bool :=
  let a := N_of_ascii c1 in
  let b := N_of_ascii c2 in
  let c := N_of_ascii c3 in
  (((a =? 225) && (b =? 154) && (c =? 128))
   || ((a =? 226) && (b =? 128)
       && (((128 <=? c) && (c <=? 138)) || (c =? 168) || (c =? 169) || (c =? 175)))
   || ((a =? 226) && (b =? 129) && (c =? 159))
   || ((a =? 227) && (b =? 128) && (c =? 128))
   || ((a =? 239) && (b =? 187) && (c =? 191)))%N.

(** [!s.trim()]: the string consists of white space only. *)
Fixpoint blank (s : string) : bool :=
  match s with
  | EmptyString => true
  | String c1 rest1 =>
      if is_white c1 then blank rest1
      else
        match rest1 with
        | EmptyString => false
        | String c2 rest2 =>
            if is_white2 c1 c2 then blank rest2
            else
              match rest2 with
              | EmptyString => false
              | String c3 rest3 => is_white3 c1 c2 c3 && blank rest3
              end
        end
  end.

(** [x.toFixed(2)] for a finite [x] below 10^21 in absolute value: the
    nearest multiple of 1/100, the larger one on a tie, after the sign has
    been split off. *)
Definition hundredths (x : Q) : Z :=
  (200 * Z.abs (Qnum x) + Zpos (Qden x)) / (2 * Zpos (Qden x)).

Definition two_digits (d : Z) : string :=
  if d <? 10 then "0" +:+ pretty d else pretty d.

Definition toFixed2 (x : Q) : string :=
  let n := hundredths x in
  (if Qnum x <? 0 then "-" else "")
    +:+ pretty (n / 100) +:+ "." +:+ two_digits (n mod 100).

(** The settled result of [fetch(url, ...)]. *)
Record response : Type := Response {
  status : Z;
  statusText : string;
  body : option value   (* [None]: the body is not JSON *)
}.

Inductive fetch_result : Type :=
| Rejected
| Settled (r : response).

Definition await_fetch (r : fetch_result) : exn response :=
  match r with
  | Rejected => Throw NetworkError
  | Settled resp => Ok resp
  end.

(** [response.ok] *)
Definition ok (r : response) : bool := (200 <=? status r) && (status r <=? 299).

(** [await response.json()] *)
Definition json (r : response) : exn value :=
  match body r with
  | Some v => Ok v
  | None => Throw SyntaxError
  end.

(** The property names every object literal inherits from
    [Object.prototype]; each is truthy and has no enumerable own property. *)
Definition Object_prototype_keys : list string :=
  [ "constructor"; "toString"; "toLocaleString"; "valueOf";
    "hasOwnProperty"; "isPrototypeOf"; "propertyIsEnumerable";
    "__proto__"; "__defineGetter__"; "__defineSetter__";
    "__lookupGetter__"; "__lookupSetter__" ].

End JS.

Declare Scope js_scope.
Delimit Scope js_scope with js.
Notation "x <- m ;; k" := (JS.bind m (fun x => k))
  (at level 100, m at next level, right associativity) : js_scope.
Notation "'check' c 'else_throw' e ;; k" := (if c then k else JS.Throw e)
  (at level 100, c at next level, e at next level, right associativity) : js_scope.

(** ** hooks/useCryptoPrice: the Market Data Fetcher *)
Module Quotes.
Import JS.
Local Open Scope js_scope.

(** [newData]: the nine fields of a quote, as read from the responses. *)
Record Quote : Type := mkQuote {
  q_price : value;
  q_priceChange24h : value;
  q_priceChangePercent24h : value;
  q_marketCap : value;
  q_volume24h : value;
  q_dominance : value;
  q_circulatingSupply : value;
  q_name : value;
  q_symbol : value
}.

(** The hook's state ([error: string | null]). *)
Record CryptoData : Type := mkCryptoData {
  price : value;
  priceChange24h : value;
  priceChangePercent24h : value;
  marketCap : value;
  volume24h : value;
  dominance : value;
  circulatingSupply : value;
  loading : bool;
  error : option string;
  name : value;
  symbol : value
}.

(** [{ ...q, loading: l, error: e }] *)
Definition spread (q : Quote) (l : bool) (e : option string) : CryptoData :=
  {| price := q_price q;
     priceChange24h := q_priceChange24h q;
     priceChangePercent24h := q_priceChangePercent24h q;
     marketCap := q_marketCap q;
     volume24h := q_volume24h q;
     dominance := q_dominance q;
     circulatingSupply := q_circulatingSupply q;
     loading := l;
     error := e;
     name := q_name q;
     symbol := q_symbol q |}.

Record CacheEntry : Type := mkCacheEntry {
  data : Quote;
  timestamp : Z
}.

(** The two module-level maps. *)
Record Store : Type := mkStore {
  cache : gmap string CacheEntry;
  lastSuccessfulPrices : gmap string Quote
}.

Definition CACHE_DURATION : Z := 60000.

(** What one invocation observes of the outside: the clock, what each
    request settles to, and the [String.prototype.toUpperCase] of the
    runtime. *)
Record World : Type := mkWorld {
  now : Z;
  fetch : string -> fetch_result;
  uppercase : string -> string
}.

Definition apiUrl (cryptoId : string) : string :=
  "https://api.coingecko.com/api/v3/coins/" +:+ cryptoId +:+
  "?localization=false&tickers=false&market_data=true&community_data=false&developer_data=false&sparkline=false".

Definition globalUrl : string := "https://api.coingecko.com/api/v3/global".

Definition num (z : Z) : value := VNum (inject_Z z).

(** Lines 166-186: the second request and the dominance it yields. *)
Definition fetchDominance (cryptoId : string) (w : World) : exn value :=
  globalResponse <- await_fetch (fetch w globalUrl) ;;
  if ok globalResponse then
    globalData <- json globalResponse ;;
    if String.eqb cryptoId "bitcoin" then
      d <- get globalData "data" ;;
      m <- get d "market_cap_percentage" ;;
      btc <- get m "btc" ;;
      Ok (or_else btc (num 50))
    else if String.eqb cryptoId "ethereum" then
      d <- get globalData "data" ;;
      m <- get d "market_cap_percentage" ;;
      eth <- get m "eth" ;;
      Ok (or_else eth (num 20))
    else Ok (num 0)
  else Ok (num 0).

(** Lines 188-198: the object literal [newData], fields in source order. *)
Definition mergeQuote (up : string -> string) (cryptoData dominance : value)
  : exn Quote :=
  market_data <- get cryptoData "market_data" ;;
  current_price <- get market_data "current_price" ;;
  price <- get current_price "usd" ;;
  priceChange24h <- get market_data "price_change_24h" ;;
  priceChangePercent24h <- get market_data "price_change_percentage_24h" ;;
  market_cap <- get market_data "market_cap" ;;
  marketCap <- get market_cap "usd" ;;
  total_volume <- get market_data "total_volume" ;;
  volume24h <- get total_volume "usd" ;;
  circulatingSupply <- get market_data "circulating_supply" ;;
  name <- get cryptoData "name" ;;
  sym <- get cryptoData "symbol" ;;
  symbol <- toUpperCase up sym ;;
  Ok (mkQuote price priceChange24h priceChangePercent24h marketCap volume24h
              dominance circulatingSupply name symbol).

(** Lines 148-198: everything in the [try] block between the cache miss and
    the writes; whatever is thrown here lands in the [catch]. *)
Definition liveFetch (cryptoId : string) (w : World) : exn Quote :=
  response <- await_fetch (fetch w (apiUrl cryptoId)) ;;
  check ok response
    else_throw Error ("HTTP " +:+ pretty (status response) +:+ ": " +:+ statusText response) ;;
  cryptoData <- json response ;;
  dominance <- fetchDominance cryptoId w ;;
  mergeQuote (uppercase w) cryptoData dominance.

(** Lines 229-264: the object literal [basicFallback]. *)
Definition demo_bitcoin : Quote :=
  mkQuote (VNum 120000) (VNum 1200) (VNum 1.01) (VNum 2400000000000)
          (VNum 28000000000) (VNum 52.0) (VNum 19.8)
          (VStr "Bitcoin") (VStr "BTC").

Definition demo_ethereum : Quote :=
  mkQuote (VNum 4200) (VNum 45) (VNum 1.08) (VNum 505000000000)
          (VNum 15000000000) (VNum 19.5) (VNum 120.4)
          (VStr "Ethereum") (VStr "ETH").

Definition demo_solana : Quote :=
  mkQuote (VNum 280.00) (VNum 8.50) (VNum 3.13) (VNum 135000000000)
          (VNum 4500000000) (VNum 0) (VNum 482.5)
          (VStr "Solana") (VStr "SOL").

Definition basicFallback : gmap string Quote :=
  <["bitcoin" := demo_bitcoin]>
    (<["ethereum" := demo_ethereum]> (<["solana" := demo_solana]> ∅)).

(** What spreading a member inherited from [Object.prototype] copies:
    nothing, so every field reads [undefined]. *)
Definition no_own_fields : Quote :=
  mkQuote VUndefined VUndefined VUndefined VUndefined VUndefined
          VUndefined VUndefined VUndefined VUndefined.

(** [basicFallback[cryptoId]], as far as the spread below can tell:
    [None] is [undefined]. *)
Definition basicFallback_at (cryptoId : string) : option Quote :=
  match basicFallback !! cryptoId with
  | Some q => Some q
  | None =>
      if bool_decide (cryptoId ∈ Object_prototype_keys)
      then Some no_own_fields
      else None
  end.

(** Line 266: [basicFallback[cryptoId] || basicFallback.bitcoin] *)
Definition fallbackData (cryptoId : string) : Quote :=
  match basicFallback_at cryptoId with
  | Some q => q
  | None => demo_bitcoin
  end.

Definition stale_notice : string :=
  "Using cached data - API temporarily unavailable".
Definition demo_notice : string :=
  "Using demo data - API unavailable and no cached data".

Definition cacheKey (cryptoId : string) : string := "crypto-" +:+ cryptoId.

(** Line 139: [cached && (now - cached.timestamp) < CACHE_DURATION] *)
Definition fresh (st : Store) (cryptoId : string) (w : World) : option CacheEntry :=
  match cache st !! cacheKey cryptoId with
  | Some cached =>
      if now w - timestamp cached <? CACHE_DURATION then Some cached else None
  | None => None
  end.

(** Lines 214-272: the [catch] block. It reads [lastSuccessfulPrices] and
    writes neither map. *)
Definition onFailure (cryptoId : string) (st : Store) : CryptoData :=
  match lastSuccessfulPrices st !! cryptoId with
  | Some lastSuccessful => spread lastSuccessful false (Some stale_notice)
  | None => spread (fallbackData cryptoId) false (Some demo_notice)
  end.

(** Lines 130-274: one run of [fetchCryptoData]; the result is the maps
    afterwards and the argument of the last [setData]. *)
Definition fetchCryptoData (cryptoId : string) (w : World) (st : Store)
  : Store * CryptoData :=
  match fresh st cryptoId w with
  | Some cached => (st, spread (data cached) false None)
  | None =>
      match liveFetch cryptoId w with
      | Ok newData =>
          ({| cache := <[cacheKey cryptoId := mkCacheEntry newData (now w)]> (cache st);
              lastSuccessfulPrices := <[cryptoId := newData]> (lastSuccessfulPrices st) |},
           spread newData false None)
      | Throw _ => (st, onFailure cryptoId st)
      end
  end.

End Quotes.

(** ** services/aiAnalysis.ts: the Narrative Fetcher *)
Module Narrative.
Import JS.
Local Open Scope js_scope.

Record AIAnalysisRequest : Type := mkRequest {
  cryptoName : string;
  symbol : string;
  currentPrice : Q;
  priceChangePercent24h : Q;
  marketCap : Q;
  volume24h : Q
}.

Record Source : Type := mkSource {
  title : value;
  url : value;
  source : string
}.

(** [AIAnalysisResponse]; the optional [error] field is never set. *)
Record AIAnalysisResponse : Type := mkResponse {
  analysis : string;
  isRealAnalysis : bool;
  sources : list Source
}.

Record CacheEntry : Type := mkCacheEntry {
  data : AIAnalysisResponse;
  timestamp : Z
}.

Record Latest : Type := mkLatest {
  l_analysis : string;
  l_timestamp : Z;
  l_cryptoData : AIAnalysisRequest
}.

(** The two module-level maps. [latestSuccessfulAnalysis] is written and
    never read. *)
Record Store : Type := mkStore {
  analysisCache : gmap string CacheEntry;
  latestSuccessfulAnalysis : gmap string Latest
}.

Definition CACHE_DURATION : Z := 300000.

(** What one invocation observes: [Date.now()] is read twice (line 31 for
    the key, line 34 for the age test and the stored timestamp). *)
Record World : Type := mkWorld {
  now_for_key : Z;
  now : Z;
  fetch : string -> fetch_result
}.

Definition responsesUrl : string := "https://api.openai.com/v1/responses".

Definition key_missing : string := "OpenAI API key not configured".
Definition invalid_shape : string := "Invalid response from OpenAI Web Search API".
Definition no_text : string := "No analysis text found in OpenAI response".
Definition unavailable : string :=
  "AI analysis service is currently unavailable. Please check your OpenAI API configuration and try again.".

Section Runtime.
(** [import.meta.env.VITE_OPENAI_API_KEY], fixed when the bundle is built. *)
Variable apiKey : option string.
(** String conversion of a value that is not a string (used by [+=] and
    by template literals). *)
Variable ToString : value -> string.
(** [new URL(v).hostname]; [None] when the constructor throws. *)
Variable hostname : value -> option string.

(** [!apiKey] is false *)
Definition has_key : bool :=
  match apiKey with
  | Some k => negb (String.eqb k "")
  | None => false
  end.

Definition text_of (v : value) : string :=
  match v with
  | VStr s => s
  | _ => ToString v
  end.

(** Line 102: [items.find(item => item.type === 'message')] *)
Fixpoint find_message (items : list value) : exn value :=
  match items with
  | [] => Ok VUndefined
  | item :: rest =>
      t <- get item "type" ;;
      if is_string t "message" then Ok item else find_message rest
  end.

(** Line 102: [data.output?.find(...)]; only an array has [find]. *)
Definition find_in_output (output : value) : exn value :=
  match output with
  | VUndefined | VNull => Ok VUndefined
  | VArr items => find_message items
  | _ => Throw TypeError
  end.

(** Lines 110-121: the loop over [messageOutput.content]. Once
    [contentItem.type] has been read, reading [contentItem.text] cannot
    throw, so it is read before the [&&]. *)
Fixpoint collect (parts : list value) (analysisText : string)
         (annotations : list value) : exn (string * list value) :=
  match parts with
  | [] => Ok (analysisText, annotations)
  | contentItem :: rest =>
      t <- get contentItem "type" ;;
      text <- get contentItem "text" ;;
      if is_string t "output_text" && truthy text then
        ann <- get contentItem "annotations" ;;
        collect rest (analysisText +:+ text_of text)
                (match ann with VArr l => l | _ => annotations end)
      else collect rest analysisText annotations
  end.

(** Lines 129-139: [annotations.forEach(...)] filling [sources]; the same
    remark applies to [annotation.url_citation]. *)
Fixpoint cite (annotations : list value) : exn (list Source) :=
  match annotations with
  | [] => Ok []
  | annotation :: rest =>
      t <- get annotation "type" ;;
      url_citation <- get annotation "url_citation" ;;
      if is_string t "url_citation" && truthy url_citation then
        title <- get url_citation "title" ;;
        url <- get url_citation "url" ;;
        host <- match hostname url with
                | Some h => Ok h
                | None => Throw TypeError
                end ;;
        more <- cite rest ;;
        Ok (mkSource (or_else title (VStr "Source")) url host :: more)
      else cite rest
  end.

(** Lines 90-94: the error thrown for a non-success status. *)
Definition statusError (response : response) : exn AIAnalysisResponse :=
  let errorData :=
    match body response with
    | Some v => v
    | None => VObj [("error", VObj [("message", VStr "Unknown error")])]
    end in
  e <- get errorData "error" ;;
  m <- get_opt e "message" ;;
  Throw (Error ("OpenAI API error: " +:+ pretty (status response) +:+ " - "
                +:+ text_of (or_else m (VStr "Unknown error")))).

(** Lines 90-146: what is done with the settled response. *)
Definition readResponse (response : response) : exn AIAnalysisResponse :=
  if negb (ok response) then statusError response else
  data <- json response ;;
  output <- get data "output" ;;
  messageOutput <- find_in_output output ;;
  check truthy messageOutput else_throw Error invalid_shape ;;
  content <- get messageOutput "content" ;;
  match content with
  | VArr parts =>
      collected <- collect parts "" [] ;;
      let analysisText := fst collected in
      let annotations := snd collected in
      check negb (blank analysisText) else_throw Error no_text ;;
      sources <- cite annotations ;;
      Ok (mkResponse analysisText true sources)
  | _ => Throw (Error invalid_shape)
  end.

(** Lines 66-147: the result, and the requests that were issued. The
    prompt only goes into the request body and is not represented. *)
Definition tryOpenAIWebSearchAPI (w : World) (request : AIAnalysisRequest)
  : exn AIAnalysisResponse * list string :=
  if has_key then
    (response <- await_fetch (fetch w responsesUrl) ;; readResponse response,
     [responsesUrl])
  else (Throw (Error key_missing), []).

(** Lines 31-32 *)
Definition bucket (t : Z) : Z := t / 300000.

Definition cacheKey (request : AIAnalysisRequest) (t : Z) : string :=
  symbol request +:+ "-" +:+ toFixed2 (currentPrice request) +:+ "-"
    +:+ toFixed2 (priceChangePercent24h request) +:+ "-" +:+ pretty (bucket t).

(** Line 37: [cached && (now - cached.timestamp) < CACHE_DURATION] *)
Definition fresh (st : Store) (request : AIAnalysisRequest) (w : World)
  : option CacheEntry :=
  match analysisCache st !! cacheKey request (now_for_key w) with
  | Some cached =>
      if now w - timestamp cached <? CACHE_DURATION then Some cached else None
  | None => None
  end.

(** Lines 48-54: the two writes after a successful call. *)
Definition remember (st : Store) (request : AIAnalysisRequest) (w : World)
           (webSearchResult : AIAnalysisResponse) : Store :=
  {| latestSuccessfulAnalysis :=
       <[symbol request := mkLatest (analysis webSearchResult) (now w) request]>
         (latestSuccessfulAnalysis st);
     analysisCache :=
       <[cacheKey request (now_for_key w) := mkCacheEntry webSearchResult (now w)]>
         (analysisCache st) |}.

(** Lines 29-64: the result, the maps afterwards and the requests issued. *)
Definition getAIAnalysis (request : AIAnalysisRequest) (w : World) (st : Store)
  : exn AIAnalysisResponse * Store * list string :=
  match fresh st request w with
  | Some cached => (Ok (data cached), st, [])
  | None =>
      let '(result, sent) := tryOpenAIWebSearchAPI w request in
      match result with
      | Ok webSearchResult =>
          if negb (String.eqb (analysis webSearchResult) "")
          then (Ok webSearchResult, remember st request w webSearchResult, sent)
          else (Throw (Error unavailable), st, sent)
      | Throw _ => (Throw (Error unavailable), st, sent)
      end
  end.

End Runtime.
End Narrative.

(** ** components/AIAnalysis.tsx: the handler behind the button *)
Module Panel.
Import JS.

Record Props : Type := mkProps {
  currentPrice : Q;
  priceChangePercent24h : Q;
  cryptoName : string;
  symbol : string;
  marketCap : Q;
  volume24h : Q
}.

(** The four [useState] cells. *)
Record State : Type := mkState {
  analysis : string;
  sources : list Narrative.Source;
  loading : bool;
  error : option string
}.

Section Runtime.
Variable apiKey : option string.
Variable ToString : value -> string.
Variable hostname : value -> option string.
(** [err.message] of an error raised by the runtime. *)
Variable engine_message : JS.error -> string.

(** Line 50: [err instanceof Error ? err.message : ...]; everything of
    type [JS.error] is an instance of [Error]. *)
Definition message (err : JS.error) : string :=
  match err with
  | Error msg => msg
  | _ => engine_message err
  end.

(** Lines 32-54: the cells after the handler has run, with the maps and
    the requests issued. *)
Definition fetchAnalysis (p : Props) (w : Narrative.World)
           (st : Narrative.Store) (ui : State)
  : State * Narrative.Store * list string :=
  if Qeq_bool (currentPrice p) 0 || String.eqb (cryptoName p) ""
  then (ui, st, [])
  else
    let request :=
      Narrative.mkRequest (cryptoName p) (symbol p) (currentPrice p)
                          (priceChangePercent24h p) (marketCap p) (volume24h p) in
    let '(result, st', sent) :=
      Narrative.getAIAnalysis apiKey ToString hostname request w st in
    match result with
    | Ok r =>
        (mkState (Narrative.analysis r) (Narrative.sources r) false None, st', sent)
    | Throw err =>
        (mkState (analysis ui) (sources ui) false (Some (message err)), st', sent)
    end.

(** Lines 140-177: the markdown body is rendered only in this case. *)
Definition shows_narrative (ui : State) : bool :=
  negb (String.eqb (analysis ui) "") && negb (loading ui)
    && match error ui with None => true | Some e => String.eqb e "" end.

End Runtime.
End Panel.

(** ** Concrete worlds used to run the model *)
Module Scenario.
Import JS Quotes.

Definition empty_store : Store := mkStore ∅ ∅.

(** The worlds below only ever send ASCII symbols, on which the case
    mapping of every runtime is [upper]. *)

(** Every request is rejected (the network is down). *)
Definition offline (t : Z) : World := mkWorld t (fun _ => Rejected) upper.

(** A market snapshot as the coins endpoint sends it. *)
Definition snapshot (name symbol : string) : value :=
  VObj [ ("name", VStr name); ("symbol", VStr symbol);
         ("market_data",
          VObj [ ("current_price", VObj [("usd", VNum 118000)]);
                 ("price_change_24h", VNum 950);
                 ("price_change_percentage_24h", VNum 0.81);
                 ("market_cap", VObj [("usd", VNum 2350000000000)]);
                 ("total_volume", VObj [("usd", VNum 31000000000)]);
                 ("circulating_supply", VNum 19900000) ]) ].

Definition totals : value :=
  VObj [ ("data",
          VObj [ ("market_cap_percentage",
                  VObj [("btc", VNum 57.3); ("eth", VNum 11.9)]) ]) ].

(** Both requests answered with status 200. *)
Definition online (t : Z) (name symbol : string) : World :=
  mkWorld t (fun url =>
    if String.eqb url globalUrl
    then Settled (Response 200 "OK" (Some totals))
    else Settled (Response 200 "OK" (Some (snapshot name symbol))))
    upper.

(** The snapshot request is answered, the global-totals request is
    rejected (a network error on the second call only). *)
Definition global_unreachable (t : Z) (name symbol : string) : World :=
  mkWorld t (fun url =>
    if String.eqb url globalUrl
    then Rejected
    else Settled (Response 200 "OK" (Some (snapshot name symbol))))
    upper.

(** The snapshot request is answered, the global-totals request comes back
    with status 500. *)
Definition global_status_500 (t : Z) (name symbol : string) : World :=
  mkWorld t (fun url =>
    if String.eqb url globalUrl
    then Settled (Response 500 "Internal Server Error" None)
    else Settled (Response 200 "OK" (Some (snapshot name symbol))))
    upper.




(** The quote [online] yields for an asset with the given dominance. *)
Definition online_quote (name symbol : string) (dominance : value) : Quote :=
  mkQuote (VNum 118000) (VNum 950) (VNum 0.81) (VNum 2350000000000)
          (VNum 31000000000) dominance (VNum 19900000)
          (VStr name) (VStr symbol).

(** A store that already holds a last successful quote for bitcoin. *)
Definition remembered : Quote :=
  mkQuote (VNum 117500) (VNum 300) (VNum 0.26) (VNum 2340000000000)
          (VNum 30000000000) (VNum 57.1) (VNum 19900000)
          (VStr "Bitcoin") (VStr "BTC").

Definition store_with_last : Store :=
  mkStore ∅ (<["bitcoin" := remembered]> ∅).

End Scenario.

(** ** Vocabulary for the statements about the Narrative Fetcher *)
Module Notions.
Import JS Narrative.

(** Two requests the cache key cannot tell apart once the time bucket is
    fixed: same symbol, same price to two decimals, same percent change to
    two decimals. *)
Definition same_inputs (r1 r2 : AIAnalysisRequest) : Prop :=
  symbol r1 = symbol r2
  /\ toFixed2 (currentPrice r1) = toFixed2 (currentPrice r2)
  /\ toFixed2 (priceChangePercent24h r1) = toFixed2 (priceChangePercent24h r2).

(** A request occurs within bucket [b]: both of its clock readings do. *)
Definition within_bucket (w : World) (b : Z) : Prop :=
  bucket (now_for_key w) = b /\ bucket (now w) = b.

(** The clock starts at the epoch and does not run backwards: not before
    [T], and not between the two readings of one call. *)
Definition ticks_after (T : Z) (w : World) : Prop :=
  0 <= T /\ T <= now_for_key w /\ now_for_key w <= now w.

(** What holds of the Analysis Cache at time [T] in every run that started
    with empty maps: an entry exists only if a credential is configured,
    its key carries a bucket that has begun by [T], and its timestamp is not
    before the start of that bucket. *)
Definition consistent (apiKey : option string) (T : Z) (st : Store) : Prop :=
  (forall k e, analysisCache st !! k = Some e -> has_key apiKey = true)
  /\ (forall request t e, 0 <= t ->
        analysisCache st !! cacheKey request t = Some e ->
        bucket t <= bucket T /\ 300000 * bucket t <= timestamp e).

(** The string contains the separator of the cache key. *)
Fixpoint has_dash (s : string) : bool :=
  match s with
  | EmptyString => false
  | String c rest => Ascii.eqb c "-" || has_dash rest
  end.

(** [null] or [undefined] *)
Definition nullish (v : value) : bool :=
  match v with
  | VUndefined | VNull => true
  | _ => false
  end.

(** An element of the output list whose [type] is "message". *)
Definition typed_message (item : value) : bool :=
  match item with
  | VObj props => is_string (own_property "type" props) "message"
  | _ => false
  end.

End Notions.

(** ** Concrete worlds for the Narrative Fetcher *)
Module Desk.
Import JS Narrative.

Definition no_maps : Store := mkStore ∅ ∅.

Definition btc : AIAnalysisRequest :=
  mkRequest "Bitcoin" "BTC" 120000 1.01 2400000000000 28000000000.

(** A response body with a search step and a message carrying one cited
    text part. *)
Definition narrated : value :=
  VObj [ ("output",
          VArr [ VObj [("type", VStr "web_search_call")];
                 VObj [ ("type", VStr "message");
                        ("content",
                         VArr [ VObj [ ("type", VStr "output_text");
                                       ("text", VStr "Bitcoin edges higher.");
                                       ("annotations",
                                        VArr [ VObj [ ("type", VStr "url_citation");
                                                      ("url_citation",
                                                       VObj [ ("title", VStr "Markets");
                                                              ("url", VStr "https://example.com/markets") ]) ] ]) ] ]) ] ]) ].

Definition narrated_response : AIAnalysisResponse :=
  mkResponse "Bitcoin edges higher." true
             [ mkSource (VStr "Markets") (VStr "https://example.com/markets") "example.com" ].

(** A response body whose output list has a search step and a reasoning
    step, and no message. *)
Definition messageless_items : list value :=
  [ VObj [("type", VStr "web_search_call")]; VObj [("type", VStr "reasoning")] ].

Definition messageless : value := VObj [("output", VArr messageless_items)].

(** The endpoint answers every request with status 200 and the given body;
    the two clock readings are [t] and [t + 1]. *)
Definition answering (t : Z) (payload : value) : World :=
  mkWorld t (t + 1) (fun _ => Settled (Response 200 "OK" (Some payload))).

Definition configured : option string := Some "sk-test".

Definition show (v : value) : string := "[object Object]".

Definition host_of (v : value) : option string :=
  match v with
  | VStr s => if String.eqb s "https://example.com/markets" then Some "example.com" else None
  | _ => None
  end.

Definition engine_text (e : JS.error) : string := "TypeError".

Definition btc_props : Panel.Props :=
  Panel.mkProps 120000 1.01 "Bitcoin" "BTC" 2400000000000 28000000000.

Definition idle : Panel.State := Panel.mkState "" [] false None.

End Desk.

(** ** components/Header.tsx: the assets that can be selected *)
Module Header.

Record crypto : Type := mkCrypto {
  id : string;
  name : string;
  symbol : string
}.

Definition cryptos : list crypto :=
  [ mkCrypto "bitcoin" "Bitcoin" "BTC";
    mkCrypto "ethereum" "Ethereum" "ETH";
    mkCrypto "solana" "Solana" "SOL" ].

End Header.

(** ** services/aiAnalysis.ts, [createWebSearchPrompt]: the wording derived
    from the percent change (lines 150-152) and the sentence built from it
    (line 168). The rest of the prompt depends on the locale and the date. *)
Module Prompt.
Import JS Narrative.

Definition direction (request : AIAnalysisRequest) : string :=
  if Qle_bool 0 (priceChangePercent24h request) then "rising" else "falling".

Definition magnitude (request : AIAnalysisRequest) : Q :=
  Qabs (priceChangePercent24h request).

Definition intensity (request : AIAnalysisRequest) : string :=
  if negb (Qle_bool (magnitude request) 5) then "significantly"
  else if negb (Qle_bool (magnitude request) 2) then "notably"
  else "slightly".

Definition headline (request : AIAnalysisRequest) : string :=
  cryptoName request +:+ " is " +:+ intensity request +:+ " "
    +:+ direction request +:+ " today by "
    +:+ toFixed2 (priceChangePercent24h request) +:+ "%.".

End Prompt.

(** ** components/AIAnalysis.tsx, lines 56-57 and the labels of the buttons *)
Module Label.
Import JS.

Definition isPositive (p : Panel.Props) : bool :=
  negb (Qle_bool (Panel.priceChangePercent24h p) 0).

Definition direction (p : Panel.Props) : string :=
  if isPositive p then "rising" else "falling".

(** Line 80 *)
Definition ask (p : Panel.Props) : string :=
  "Get AI Analysis: Why is " +:+ Panel.symbol p +:+ " " +:+ direction p +:+ " today?".

(** The request the handler builds from the props (lines 39-46). *)
Definition request_of (p : Panel.Props) : Narrative.AIAnalysisRequest :=
  Narrative.mkRequest (Panel.cryptoName p) (Panel.symbol p) (Panel.currentPrice p)
                      (Panel.priceChangePercent24h p) (Panel.marketCap p)
                      (Panel.volume24h p).

End Label.

(** ** hooks/useCryptoPrice, lines 276-283: the refresh timer *)
Module Refresh.

(** [setInterval(fetchCryptoData, 120000)] *)
Definition INTERVAL : Z := 120000.

End Refresh.

(** ** Vocabulary for runs of several calls *)
Module Runs.
Import JS.

(** The maps after a series of quote fetches, oldest first. *)
Definition replay (calls : list (string * Quotes.World)) (st : Quotes.Store)
  : Quotes.Store :=
  fold_left (fun st c => fst (Quotes.fetchCryptoData (fst c) (snd c) st)) calls st.

(** The Freshness Cache never holds a payload the Fallback Store does not. *)
Definition agree (st : Quotes.Store) : Prop :=
  forall cryptoId e,
    Quotes.cache st !! Quotes.cacheKey cryptoId = Some e ->
    Quotes.lastSuccessfulPrices st !! cryptoId = Some (Quotes.data e).

(** [v.k], reading [undefined] where the read would throw. *)
Definition field (v : value) (k : string) : value :=
  match get v k with
  | Ok x => x
  | Throw _ => VUndefined
  end.

(** The snapshot has every object the merge reads through, and a string
    symbol. *)
Definition well_shaped (cryptoData : value) : bool :=
  let market_data := field cryptoData "market_data" in
  negb (Notions.nullish cryptoData)
  && negb (Notions.nullish market_data)
  && negb (Notions.nullish (field market_data "current_price"))
  && negb (Notions.nullish (field market_data "market_cap"))
  && negb (Notions.nullish (field market_data "total_volume"))
  && match field cryptoData "symbol" with VStr _ => true | _ => false end.

Definition symbol_text (cryptoData : value) : string :=
  match field cryptoData "symbol" with
  | VStr s => s
  | _ => ""
  end.

(** Every cached narrative is marked real and has text. *)
Definition genuine (st : Narrative.Store) : Prop :=
  forall k e,
    Narrative.analysisCache st !! k = Some e ->
    Narrative.isRealAnalysis (Narrative.data e) = true
    /\ blank (Narrative.analysis (Narrative.data e)) = false.

(** An annotation that the loop over the annotations turns into a source. *)
Definition citation_url (annotation : value) : option value :=
  if is_string (field annotation "type") "url_citation"
     && truthy (field annotation "url_citation")
  then Some (field (field annotation "url_citation") "url")
  else None.

End Runs.

(** ** More concrete responses of the narrative endpoint *)
Module Cases.
Import JS Narrative.

(** A text part as the endpoint sends it, without annotations. *)
Definition text_part (s : string) : value :=
  VObj [("type", VStr "output_text"); ("text", VStr s)].

Definition bad_citation : value :=
  VObj [ ("type", VStr "url_citation");
         ("url_citation", VObj [("title", VStr "Broken"); ("url", VStr "not a url")]) ].

Definition good_citation : value :=
  VObj [ ("type", VStr "url_citation");
         ("url_citation", VObj [("url", VStr "https://example.com/markets")]) ].

(** A message whose only text part cites one well-formed and one malformed
    URL. *)
Definition badly_cited_message : value :=
  VObj [ ("type", VStr "message");
         ("content",
          VArr [ VObj [ ("type", VStr "output_text");
                        ("text", VStr "Bitcoin edges higher.");
                        ("annotations", VArr [good_citation; bad_citation]) ] ]) ].

Definition badly_cited : value := VObj [("output", VArr [badly_cited_message])].

(** Two messages in one output list, after a null element. *)
Definition first_message : value :=
  VObj [("type", VStr "message"); ("content", VArr [text_part "First."])].

Definition second_message : value :=
  VObj [("type", VStr "message"); ("content", VArr [text_part "Second."])].

(** A store whose Analysis Cache holds the narrative of [Desk.narrated] under
    the key of [Desk.btc] in bucket 0. *)
Definition warm : Store :=
  snd (fst (getAIAnalysis Desk.configured Desk.show Desk.host_of Desk.btc
                          (Desk.answering 1000 Desk.narrated) Desk.no_maps)).

(** U+00A0 (no-break space) and U+3000 (ideographic space) in UTF-8. *)
Definition nbsp : string := String (ascii_of_nat 194) (String (ascii_of_nat 160) "").
Definition wide_space : string :=
  String (ascii_of_nat 227) (String (ascii_of_nat 128) (String (ascii_of_nat 128) "")).

(** A message whose only text is white space outside ASCII. *)
Definition hollow : value :=
  VObj [ ("output",
          VArr [ VObj [ ("type", VStr "message");
                        ("content", VArr [text_part (nbsp +:+ " " +:+ wide_space)]) ] ]) ].

Definition flat_props : Panel.Props :=
  Panel.mkProps 120000 0 "Bitcoin" "BTC" 2400000000000 28000000000.

End Cases.

(** * Properties of the Market Data Fetcher *)
Section QuoteFacts.
Import JS Quotes.

Lemma bind_Ok {A B} (m : exn A) (k : A -> exn B) (b : B) :
  bind m k = Ok b -> exists a, m = Ok a /\ k a = Ok b.
Proof. destruct m as [a|e]; simpl; [eauto | discriminate]. Qed.

Lemma basicFallback_bitcoin : basicFallback !! "bitcoin" = Some demo_bitcoin.
Proof. reflexivity. Qed.

Lemma basicFallback_own cryptoId q :
  basicFallback !! cryptoId = Some q ->
  (cryptoId = "bitcoin" /\ q = demo_bitcoin)
  \/ (cryptoId = "ethereum" /\ q = demo_ethereum)
  \/ (cryptoId = "solana" /\ q = demo_solana).
Proof.
  unfold basicFallback. intros H.
  destruct (decide (cryptoId = "bitcoin")) as [->|Hb].
  { rewrite lookup_insert_eq in H. left. split; congruence. }
  rewrite lookup_insert_ne in H by congruence.
  destruct (decide (cryptoId = "ethereum")) as [->|He].
  { rewrite lookup_insert_eq in H. right; left. split; congruence. }
  rewrite lookup_insert_ne in H by congruence.
  destruct (decide (cryptoId = "solana")) as [->|Hs].
  { rewrite lookup_insert_eq in H. right; right. split; congruence. }
  rewrite lookup_insert_ne in H by congruence.
  rewrite lookup_empty in H. discriminate.
Qed.

Lemma basicFallback_other cryptoId :
  cryptoId <> "bitcoin" -> cryptoId <> "ethereum" -> cryptoId <> "solana" ->
  basicFallback !! cryptoId = None.
Proof.
  intros Hb He Hs. unfold basicFallback.
  rewrite !lookup_insert_ne by congruence. apply lookup_empty.
Qed.

(** The [catch] block leaves both maps as they were, whatever was thrown. *)
Lemma failure_path cryptoId w st e :
  fresh st cryptoId w = None ->
  liveFetch cryptoId w = Throw e ->
  fetchCryptoData cryptoId w st = (st, onFailure cryptoId st).
Proof. intros Hmiss Hfail. unfold fetchCryptoData. now rewrite Hmiss, Hfail. Qed.

Lemma success_path cryptoId w st newData :
  fresh st cryptoId w = None ->
  liveFetch cryptoId w = Ok newData ->
  fetchCryptoData cryptoId w st =
    (mkStore (<[cacheKey cryptoId := mkCacheEntry newData (now w)]> (cache st))
             (<[cryptoId := newData]> (lastSuccessfulPrices st)),
     spread newData false None).
Proof. intros Hmiss Hok. unfold fetchCryptoData. now rewrite Hmiss, Hok. Qed.


Lemma mergeQuote_dominance up cryptoData d q :
  mergeQuote up cryptoData d = Ok q -> q_dominance q = d.
Proof.
  unfold mergeQuote. intros H.
  repeat (apply bind_Ok in H; destruct H as (? & _ & H)).
  injection H as <-. reflexivity.
Qed.

Lemma liveFetch_Ok cryptoId w q :
  liveFetch cryptoId w = Ok q ->
  exists response cryptoData d,
    fetch w (apiUrl cryptoId) = Settled response /\ ok response = true
    /\ body response = Some cryptoData
    /\ fetchDominance cryptoId w = Ok d
    /\ mergeQuote (uppercase w) cryptoData d = Ok q.
Proof.
  unfold liveFetch. intros H.
  apply bind_Ok in H. destruct H as (response & Hr & H).
  destruct (ok response) eqn:Hok; [|discriminate].
  apply bind_Ok in H. destruct H as (cryptoData & Hj & H).
  apply bind_Ok in H. destruct H as (d & Hd & H).
  exists response, cryptoData, d. repeat split; auto.
  - destruct (fetch w (apiUrl cryptoId)); simpl in Hr; congruence.
  - unfold json in Hj. destruct (body response); congruence.
Qed.

(** A rejected global-totals request aborts the whole [try] block, even
    though the snapshot request was answered. *)
Lemma global_rejection_is_fatal cryptoId w :
  fetch w globalUrl = Rejected ->
  forall q, liveFetch cryptoId w <> Ok q.
Proof.
  intros Hg q H. apply liveFetch_Ok in H.
  destruct H as (_ & _ & d & _ & _ & _ & Hd & _).
  unfold fetchDominance in Hd. rewrite Hg in Hd. discriminate.
Qed.

(** A global-totals response with a non-success status is tolerated: the
    quote is built with dominance 0. *)
Lemma global_bad_status_is_soft cryptoId w response cryptoData g :
  fetch w (apiUrl cryptoId) = Settled response -> ok response = true ->
  body response = Some cryptoData ->
  fetch w globalUrl = Settled g -> ok g = false ->
  liveFetch cryptoId w = mergeQuote (uppercase w) cryptoData (num 0).
Proof.
  intros Hr Hok Hb Hg Hbad. unfold liveFetch, fetchDominance, json.
  rewrite Hr, Hg. simpl. rewrite Hok, Hb, Hbad. reflexivity.
Qed.


(** For a key that is neither in the table nor a member inherited from
    [Object.prototype], the lookup is [undefined] and Bitcoin's entry is
    used. *)
Lemma fallbackData_unknown cryptoId :
  cryptoId <> "bitcoin" -> cryptoId <> "ethereum" -> cryptoId <> "solana" ->
  cryptoId ∉ Object_prototype_keys ->
  fallbackData cryptoId = demo_bitcoin.
Proof.
  intros Hb He Hs Hp. unfold fallbackData, basicFallback_at.
  rewrite basicFallback_other by assumption.
  rewrite bool_decide_eq_false_2 by assumption. reflexivity.
Qed.

End QuoteFacts.


Section QuoteClaims.
Import JS Quotes Scenario.

(** C1. When the live quote fetch fails and the Fallback Store holds no entry
    for the asset key, the maps are left alone and the quote returned is the
    hardcoded default with the demo-data notice; a key that has an entry in
    the table of defaults gets that entry, and for "bitcoin" the result has
    price 120000, percent change 1.01, name "Bitcoin" and symbol "BTC". *)
Theorem C1_demo_default_on_failure cryptoId w st e :
  fresh st cryptoId w = None ->
  liveFetch cryptoId w = Throw e ->
  lastSuccessfulPrices st !! cryptoId = None ->
  fetchCryptoData cryptoId w st
    = (st, spread (fallbackData cryptoId) false (Some demo_notice))
  /\ (forall q, basicFallback !! cryptoId = Some q -> fallbackData cryptoId = q)
  /\ (cryptoId = "bitcoin" ->
      let d := snd (fetchCryptoData cryptoId w st) in
      price d = VNum 120000 /\ priceChangePercent24h d = VNum 1.01
      /\ name d = VStr "Bitcoin" /\ symbol d = VStr "BTC"
      /\ error d = Some demo_notice).
Proof.
  intros Hmiss Hfail Hnone.
  assert (Hrun : fetchCryptoData cryptoId w st
                 = (st, spread (fallbackData cryptoId) false (Some demo_notice))).
  { rewrite (failure_path _ _ _ _ Hmiss Hfail). unfold onFailure.
    now rewrite Hnone. }
  split; [exact Hrun|]. split.
  - intros q Hq. unfold fallbackData, basicFallback_at. now rewrite Hq.
  - intros ->. rewrite Hrun. simpl. repeat split.
Qed.

Lemma C1_witness :
  fetchCryptoData "bitcoin" (offline 0) empty_store
    = (empty_store, spread demo_bitcoin false (Some demo_notice))
  /\ price (snd (fetchCryptoData "bitcoin" (offline 0) empty_store)) = VNum 120000.
Proof.
  destruct (C1_demo_default_on_failure "bitcoin" (offline 0) empty_store NetworkError)
    as (Hrun & Hown & Hbtc); [vm_compute; reflexivity ..|].
  split.
  - rewrite Hrun, (Hown demo_bitcoin basicFallback_bitcoin). reflexivity.
  - exact (proj1 (Hbtc eq_refl)).
Defined.








(** C6. The claim says a failed global-totals request never costs the quote.
    The code tolerates a non-success status (dominance 0, both maps written,
    no error) but not a rejected request: with the snapshot answered and the
    global-totals request rejected, nothing is stored and the demo quote
    comes back with the demo-data notice. *)
Theorem C6_global_rejection_loses_snapshot :
  fetchCryptoData "bitcoin" (global_unreachable 0 "Bitcoin" "btc") empty_store
    = (empty_store, spread demo_bitcoin false (Some demo_notice))
  /\ fetchCryptoData "bitcoin" (global_status_500 0 "Bitcoin" "btc") empty_store
     = (mkStore
          (<["crypto-bitcoin" := mkCacheEntry (online_quote "Bitcoin" "BTC" (num 0)) 0]> ∅)
          (<["bitcoin" := online_quote "Bitcoin" "BTC" (num 0)]> ∅),
        spread (online_quote "Bitcoin" "BTC" (num 0)) false None).
Proof. split; vm_compute; reflexivity. Qed.

(** C10. The claim says every key outside bitcoin, ethereum and solana falls
    back to Bitcoin's default. For the key "constructor" the lookup in the
    table finds the member inherited from [Object.prototype], which is truthy
    and spreads to no field: the quote returned has no price and no symbol. *)
Theorem C10_inherited_key_yields_empty_quote :
  basicFallback !! "constructor" = None
  /\ fetchCryptoData "constructor" (offline 0) empty_store
     = (empty_store, spread no_own_fields false (Some demo_notice))
  /\ price (snd (fetchCryptoData "constructor" (offline 0) empty_store)) = VUndefined
  /\ symbol (snd (fetchCryptoData "constructor" (offline 0) empty_store)) = VUndefined.
Proof. repeat split; vm_compute; reflexivity. Qed.

(** The part of C10 the code does deliver: any other unknown key gets
    Bitcoin's default with the demo-data notice. *)
Lemma unknown_key_gets_bitcoin_default cryptoId w st e :
  cryptoId <> "bitcoin" -> cryptoId <> "ethereum" -> cryptoId <> "solana" ->
  cryptoId ∉ Object_prototype_keys ->
  fresh st cryptoId w = None ->
  liveFetch cryptoId w = Throw e ->
  lastSuccessfulPrices st !! cryptoId = None ->
  fetchCryptoData cryptoId w st
    = (st, spread demo_bitcoin false (Some demo_notice)).
Proof.
  intros Hb He Hs Hp Hmiss Hfail Hnone.
  rewrite (failure_path _ _ _ _ Hmiss Hfail). unfold onFailure.
  rewrite Hnone, fallbackData_unknown by assumption. reflexivity.
Qed.

End QuoteClaims.

(** * Properties of the Narrative Fetcher *)

(** ** The cache key determines its time bucket *)
Section KeyFacts.
Import JS Narrative Notions.

Lemma append_assoc3 (s1 s2 s3 : string) :
  (s1 +:+ s2) +:+ s3 = s1 +:+ s2 +:+ s3.
Proof.
  induction s1 as [|a s1 IH]; [reflexivity|].
  change (String a ((s1 +:+ s2) +:+ s3) = String a (s1 +:+ s2 +:+ s3)).
  now rewrite IH.
Qed.

Lemma has_dash_after (p d : string) : has_dash (p +:+ String "-" d) = true.
Proof.
  induction p as [|a p IH]; [reflexivity|].
  change (has_dash (String a (p +:+ String "-" d)) = true).
  simpl. rewrite IH. apply orb_true_r.
Qed.

(** Two strings that end in a dash followed by a dash-free tail agree on
    that tail. *)
Lemma dash_tail_inj (p1 p2 d1 d2 : string) :
  has_dash d1 = false -> has_dash d2 = false ->
  p1 +:+ String "-" d1 = p2 +:+ String "-" d2 -> d1 = d2.
Proof.
  intros H1 H2. revert p2.
  induction p1 as [|a p1 IH]; intros [|b p2] Heq.
  - now injection Heq.
  - change (String "-" d1 = String b (p2 +:+ String "-" d2)) in Heq.
    injection Heq as _ ->. now rewrite has_dash_after in H1.
  - change (String a (p1 +:+ String "-" d1) = String "-" d2) in Heq.
    injection Heq as _ <-. now rewrite has_dash_after in H2.
  - change (String a (p1 +:+ String "-" d1) = String b (p2 +:+ String "-" d2)) in Heq.
    injection Heq as _ Heq. now apply IH with p2.
Qed.

Lemma digit_no_dash (x : N) : Ascii.eqb (pretty_N_char x) "-" = false.
Proof. unfold pretty_N_char. repeat case_match; reflexivity. Qed.

Lemma pretty_N_go_no_dash (x : N) (s : string) :
  has_dash s = false -> has_dash (pretty_N_go x s) = false.
Proof.
  revert s. induction (N.lt_wf_0 x) as [x _ IH]. intros s Hs.
  destruct (decide (x = 0%N)) as [->|Hx].
  - now rewrite pretty_N_go_0.
  - rewrite pretty_N_go_step by lia. apply IH.
    + apply N.div_lt; lia.
    + simpl. now rewrite digit_no_dash.
Qed.

Lemma pretty_no_dash (z : Z) : 0 <= z -> has_dash (pretty z) = false.
Proof.
  intros Hz. destruct z as [|p|p]; [reflexivity| |lia].
  unfold pretty, pretty_Z, pretty, pretty_positive, pretty, pretty_N.
  case_decide; [reflexivity|]. now apply pretty_N_go_no_dash.
Qed.

Lemma bucket_nonneg (t : Z) : 0 <= t -> 0 <= bucket t.
Proof. intros Ht. unfold bucket. Z.div_mod_to_equations. lia. Qed.

Lemma bucket_mono (t t' : Z) : t <= t' -> bucket t <= bucket t'.
Proof. intros Ht. unfold bucket. apply Z.div_le_mono; lia. Qed.

Lemma bucket_start (t : Z) : 300000 * bucket t <= t.
Proof. unfold bucket. Z.div_mod_to_equations. lia. Qed.

Lemma bucket_end (t : Z) : t < 300000 * bucket t + 300000.
Proof. unfold bucket. Z.div_mod_to_equations. lia. Qed.

(** The key is a prefix, a dash, and the decimal bucket number. *)
Lemma cacheKey_tail (request : AIAnalysisRequest) (t : Z) :
  cacheKey request t
  = (symbol request +:+ "-" +:+ toFixed2 (currentPrice request) +:+ "-"
       +:+ toFixed2 (priceChangePercent24h request))
      +:+ String "-" (pretty (bucket t)).
Proof. unfold cacheKey. now rewrite !append_assoc3. Qed.

Lemma cacheKey_bucket (r r' : AIAnalysisRequest) (t t' : Z) :
  0 <= t -> 0 <= t' -> cacheKey r t = cacheKey r' t' -> bucket t = bucket t'.
Proof.
  intros Ht Ht' Heq. rewrite !cacheKey_tail in Heq.
  apply dash_tail_inj in Heq; auto using pretty_no_dash, bucket_nonneg.
  now apply (inj pretty).
Qed.

Lemma cacheKey_same_inputs (r1 r2 : AIAnalysisRequest) (t1 t2 : Z) :
  same_inputs r1 r2 -> bucket t1 = bucket t2 -> cacheKey r1 t1 = cacheKey r2 t2.
Proof. intros (Hs & Hp & Hc) Hb. unfold cacheKey. now rewrite Hs, Hp, Hc, Hb. Qed.

End KeyFacts.

(** ** One call of [getAIAnalysis] *)
Section NarrativeFacts.
Import JS Narrative Notions.
Variable apiKey : option string.
Variable ToString : value -> string.
Variable hostname : value -> option string.

Local Abbreviation attempt := (tryOpenAIWebSearchAPI apiKey ToString hostname).
Local Abbreviation run := (getAIAnalysis apiKey ToString hostname).

Lemma attempt_sent w request :
  snd (attempt w request) = if has_key apiKey then [responsesUrl] else [].
Proof. unfold tryOpenAIWebSearchAPI. now destruct (has_key apiKey). Qed.

Lemma attempt_Ok_has_key w request r :
  fst (attempt w request) = Ok r -> has_key apiKey = true.
Proof. unfold tryOpenAIWebSearchAPI. now destruct (has_key apiKey). Qed.

(** A cache hit: the entry's payload, no write, no request. *)
Lemma run_hit request w st cached :
  fresh st request w = Some cached ->
  run request w st = (Ok (data cached), st, []).
Proof. intros H. unfold getAIAnalysis. now rewrite H. Qed.

(** A miss followed by a usable answer: the two writes, one request. *)
Lemma run_fresh request w st r :
  fresh st request w = None ->
  fst (attempt w request) = Ok r -> analysis r <> "" ->
  run request w st = (Ok r, remember st request w r, [responsesUrl]).
Proof.
  intros Hmiss Hok Hne. unfold getAIAnalysis. rewrite Hmiss.
  pose proof (attempt_sent w request) as Hs.
  rewrite (attempt_Ok_has_key _ _ _ Hok) in Hs.
  destruct (attempt w request) as [res sent]. simpl in *. subst.
  apply String.eqb_neq in Hne. now rewrite Hne.
Qed.

(** A miss followed by anything else: the fixed error, no write. *)
Lemma run_failed request w st :
  fresh st request w = None ->
  (forall r, fst (attempt w request) = Ok r -> analysis r = "") ->
  run request w st = (Throw (Error unavailable), st, snd (attempt w request)).
Proof.
  intros Hmiss Hbad. unfold getAIAnalysis. rewrite Hmiss.
  destruct (attempt w request) as [[r|e] sent]; simpl in *; [|reflexivity].
  rewrite (Hbad r eq_refl). reflexivity.
Qed.

(** The three ways a call can end. *)
Lemma run_cases request w st :
  (exists cached, fresh st request w = Some cached
                  /\ run request w st = (Ok (data cached), st, []))
  \/ (exists r, fresh st request w = None /\ fst (attempt w request) = Ok r
                /\ analysis r <> "" /\ has_key apiKey = true
                /\ run request w st = (Ok r, remember st request w r, [responsesUrl]))
  \/ (fresh st request w = None
      /\ run request w st = (Throw (Error unavailable), st, snd (attempt w request))).
Proof.
  destruct (fresh st request w) as [cached|] eqn:Hf.
  { left. exists cached. split; [reflexivity|]. now apply run_hit. }
  right. destruct (fst (attempt w request)) as [r|e] eqn:Ha.
  - destruct (decide (analysis r = "")) as [He|Hne].
    + right. split; [reflexivity|]. apply run_failed; [assumption|].
      intros r' Hr'. congruence.
    + left. exists r. repeat split; eauto using attempt_Ok_has_key, run_fresh.
  - right. split; [reflexivity|]. apply run_failed; [assumption|].
    intros r' Hr'. congruence.
Qed.

Lemma fresh_Some st request w cached :
  fresh st request w = Some cached ->
  analysisCache st !! cacheKey request (now_for_key w) = Some cached
  /\ now w - timestamp cached < CACHE_DURATION.
Proof.
  unfold fresh. destruct (analysisCache st !! _) as [c|]; [|discriminate].
  destruct (now w - timestamp c <? CACHE_DURATION) eqn:Hlt; [|discriminate].
  intros [= <-]. split; [reflexivity|]. now apply Z.ltb_lt.
Qed.

Lemma fresh_found st request w cached :
  analysisCache st !! cacheKey request (now_for_key w) = Some cached ->
  now w - timestamp cached < CACHE_DURATION ->
  fresh st request w = Some cached.
Proof.
  intros Hl Hlt. unfold fresh. rewrite Hl.
  apply Z.ltb_lt in Hlt. now rewrite Hlt.
Qed.

Lemma fresh_absent st request w :
  analysisCache st !! cacheKey request (now_for_key w) = None ->
  fresh st request w = None.
Proof. intros Hl. unfold fresh. now rewrite Hl. Qed.

(** ** The invariant of the Analysis Cache *)

Lemma consistent_empty T : consistent apiKey T (mkStore ∅ ∅).
Proof.
  split; simpl.
  - intros k e H. now rewrite lookup_empty in H.
  - intros request t e _ H. now rewrite lookup_empty in H.
Qed.

Lemma consistent_later T T' st :
  T <= T' -> consistent apiKey T st -> consistent apiKey T' st.
Proof.
  intros HT [Hk Hb]. split; [exact Hk|].
  intros request t e Ht Hl. destruct (Hb request t e Ht Hl) as [H1 H2].
  split; [|exact H2]. pose proof (bucket_mono T T' HT). lia.
Qed.

Lemma consistent_remember T st request w r :
  consistent apiKey T st -> ticks_after T w -> has_key apiKey = true ->
  consistent apiKey (now_for_key w) (remember st request w r).
Proof.
  intros [Hk Hb] (H0 & HT & Hnow) Hkey. split; simpl.
  - intros k e _. exact Hkey.
  - intros request' t e Ht Hl.
    destruct (decide (cacheKey request (now_for_key w) = cacheKey request' t)) as [Heq|Hne].
    + rewrite Heq, lookup_insert_eq in Hl. injection Hl as <-. simpl.
      apply cacheKey_bucket in Heq; [|lia|lia]. rewrite <- Heq.
      pose proof (bucket_start (now_for_key w)). lia.
    + rewrite lookup_insert_ne in Hl by exact Hne.
      destruct (Hb request' t e Ht Hl) as [H1 H2]. split; [|exact H2].
      pose proof (bucket_mono T (now_for_key w) HT). lia.
Qed.

(** Every call preserves the invariant, so it holds in every state reached
    from empty maps under a clock that does not run backwards. *)
Lemma consistent_step T st request w result st' sent :
  consistent apiKey T st -> ticks_after T w ->
  run request w st = (result, st', sent) ->
  consistent apiKey (now_for_key w) st'.
Proof.
  intros Hc Ht Hrun. pose proof Ht as (H0 & HT & Hnow).
  destruct (run_cases request w st)
    as [(c & _ & H)|[(r & _ & _ & _ & Hkey & H)|(_ & H)]];
    rewrite H in Hrun; injection Hrun as <- <- <-.
  - now apply consistent_later with T.
  - now apply consistent_remember with T.
  - now apply consistent_later with T.
Qed.

(** ** Two calls in a row *)

(** After a call that returned a narrative, the entry under its key holds
    that narrative and is stamped no earlier than the start of the bucket. *)
Lemma entry_after_success T st request w r st' sent :
  consistent apiKey T st -> ticks_after T w ->
  run request w st = (Ok r, st', sent) ->
  has_key apiKey = true
  /\ exists e, analysisCache st' !! cacheKey request (now_for_key w) = Some e
               /\ data e = r
               /\ 300000 * bucket (now_for_key w) <= timestamp e.
Proof.
  intros Hc (H0 & HT & Hnow) Hrun.
  destruct (run_cases request w st)
    as [(c & Hf & H)|[(r' & _ & _ & _ & Hkey & H)|(_ & H)]];
    rewrite H in Hrun; [| |discriminate].
  - injection Hrun as <- <- <-. apply fresh_Some in Hf as [Hl _].
    destruct Hc as [Hk Hb]. split; [eauto|].
    exists c. repeat split; [exact Hl|]. apply (Hb request _ c); [lia|exact Hl].
  - injection Hrun as <- <- <-. split; [exact Hkey|].
    eexists. simpl. rewrite lookup_insert_eq. repeat split. simpl.
    pose proof (bucket_start (now_for_key w)). lia.
Qed.

Lemma hit_in_same_bucket T st0 req1 req2 w1 w2 r1 st1 sent1 :
  consistent apiKey T st0 -> ticks_after T w1 ->
  same_inputs req1 req2 ->
  run req1 w1 st0 = (Ok r1, st1, sent1) ->
  within_bucket w2 (bucket (now_for_key w1)) ->
  run req2 w2 st1 = (Ok r1, st1, []).
Proof.
  intros Hc Ht Hsame Hrun [Hb1 Hb2].
  destruct (entry_after_success _ _ _ _ _ _ _ Hc Ht Hrun)
    as (_ & e & Hl & <- & Hstart).
  apply run_hit, fresh_found.
  - rewrite <- (cacheKey_same_inputs req1 req2 (now_for_key w1) (now_for_key w2));
      auto.
  - pose proof (bucket_end (now w2)). rewrite Hb2 in H.
    unfold CACHE_DURATION. lia.
Qed.

Lemma miss_in_later_bucket T st0 req1 req2 w1 w2 r1 st1 sent1 :
  consistent apiKey T st0 -> ticks_after T w1 -> ticks_after (now w1) w2 ->
  run req1 w1 st0 = (Ok r1, st1, sent1) ->
  bucket (now_for_key w2) <> bucket (now_for_key w1) ->
  exists result st2, run req2 w2 st1 = (result, st2, [responsesUrl]).
Proof.
  intros Hc Ht1 Ht2 Hrun Hne.
  destruct (entry_after_success _ _ _ _ _ _ _ Hc Ht1 Hrun) as (Hkey & _).
  pose proof (consistent_step _ _ _ _ _ _ _ Hc Ht1 Hrun) as [_ Hb].
  destruct Ht1 as (H0 & HT & Hn1). destruct Ht2 as (_ & Hn12 & Hn2).
  assert (Hmiss : fresh st1 req2 w2 = None).
  { apply fresh_absent.
    destruct (analysisCache st1 !! cacheKey req2 (now_for_key w2)) as [e|] eqn:Hl;
      [|reflexivity].
    destruct (Hb req2 (now_for_key w2) e) as [Hle _]; [lia|exact Hl|].
    pose proof (bucket_mono (now_for_key w1) (now_for_key w2)). lia. }
  destruct (run_cases req2 w2 st1)
    as [(c & Hf & _)|[(r & _ & _ & _ & _ & H)|(_ & H)]].
  - congruence.
  - eauto.
  - rewrite attempt_sent, Hkey in H. eauto.
Qed.

End NarrativeFacts.

(** ** The ways the upstream call fails *)
Section FailureKinds.
Import JS Narrative Notions.
Variable apiKey : option string.
Variable ToString : value -> string.
Variable hostname : value -> option string.

Local Abbreviation attempt := (tryOpenAIWebSearchAPI apiKey ToString hostname).
Local Abbreviation read := (readResponse ToString hostname).

(** Missing credential: nothing is sent. *)
Lemma missing_key_throws w request :
  has_key apiKey = false ->
  attempt w request = (Throw (Error key_missing), []).
Proof. intros H. unfold tryOpenAIWebSearchAPI. now rewrite H. Qed.

Lemma attempt_settled w request response :
  has_key apiKey = true -> fetch w responsesUrl = Settled response ->
  attempt w request = (read response, [responsesUrl]).
Proof. intros Hk Hf. unfold tryOpenAIWebSearchAPI. now rewrite Hk, Hf. Qed.

(** Network error. *)
Lemma rejected_throws w request :
  has_key apiKey = true -> fetch w responsesUrl = Rejected ->
  attempt w request = (Throw NetworkError, [responsesUrl]).
Proof. intros Hk Hf. unfold tryOpenAIWebSearchAPI. now rewrite Hk, Hf. Qed.

(** Non-success status. *)
Lemma bad_status_throws response :
  ok response = false -> exists e, read response = Throw e.
Proof.
  intros Hok. unfold readResponse, statusError. rewrite Hok. simpl.
  destruct (get _ "error") as [e|]; simpl; [|eauto].
  destruct (get_opt e "message"); simpl; eauto.
Qed.

(** No message in the output list. *)
Lemma find_message_none items :
  Forall (fun item => typed_message item = false) items ->
  find_message items
  = if forallb (fun item => negb (nullish item)) items
    then Ok VUndefined else Throw TypeError.
Proof.
  induction 1 as [|item items Hitem _ IH]; [reflexivity|].
  destruct item; simpl in *; try exact IH; try reflexivity.
  rewrite Hitem. exact IH.
Qed.

Lemma no_message_throws response data items :
  ok response = true -> body response = Some data ->
  get data "output" = Ok (VArr items) ->
  Forall (fun item => typed_message item = false) items ->
  read response
  = Throw (if forallb (fun item => negb (nullish item)) items
           then Error invalid_shape else TypeError).
Proof.
  intros Hok Hbody Hout Hnone. unfold readResponse, json.
  rewrite Hok, Hbody. simpl. rewrite Hout. simpl.
  rewrite (find_message_none _ Hnone).
  now destruct (forallb _ items).
Qed.

(** Empty text. *)
Lemma blank_text_throws response data output message parts text annotations :
  ok response = true -> body response = Some data ->
  get data "output" = Ok output ->
  find_in_output output = Ok message -> truthy message = true ->
  get message "content" = Ok (VArr parts) ->
  collect ToString parts "" [] = Ok (text, annotations) ->
  blank text = true ->
  read response = Throw (Error no_text).
Proof.
  intros Hok Hbody Hout Hfind Htr Hcont Hcol Hblank. unfold readResponse, json.
  rewrite Hok, Hbody. simpl. rewrite Hout. simpl. rewrite Hfind. simpl.
  rewrite Htr, Hcont. simpl. rewrite Hcol. simpl. now rewrite Hblank.
Qed.

End FailureKinds.

(** * Claims about the Narrative Fetcher *)
Section NarrativeClaims.
Import JS Narrative Notions Desk.

(** C4. Take two narrative requests with the same symbol, the same price to
    two decimals and the same percent change to two decimals, made one after
    the other in a state reached from empty maps, the first of which returned
    a narrative. If the second occurs within the first one's 5-minute bucket
    it returns that same narrative from the cache, writes nothing and issues
    no request; if it occurs in another bucket it issues one request to the
    narrative endpoint. *)
Theorem C4_bucketed_narrative_cache
    (apiKey : option string) (ToString : value -> string)
    (hostname : value -> option string) (T : Z) (st0 st1 : Store)
    (req1 req2 : AIAnalysisRequest) (w1 w2 : World)
    (r1 : AIAnalysisResponse) (sent1 : list string) :
  consistent apiKey T st0 ->
  ticks_after T w1 -> ticks_after (now w1) w2 ->
  same_inputs req1 req2 ->
  getAIAnalysis apiKey ToString hostname req1 w1 st0 = (Ok r1, st1, sent1) ->
  (within_bucket w2 (bucket (now_for_key w1)) ->
   getAIAnalysis apiKey ToString hostname req2 w2 st1 = (Ok r1, st1, []))
  /\ (bucket (now_for_key w2) <> bucket (now_for_key w1) ->
      exists result st2,
        getAIAnalysis apiKey ToString hostname req2 w2 st1
        = (result, st2, [responsesUrl])).
Proof.
  intros Hc Ht1 Ht2 Hsame Hrun. split; intros Hb.
  - eapply hit_in_same_bucket; eauto.
  - eapply miss_in_later_bucket; eauto.
Qed.

Lemma C4_witness :
  let first := getAIAnalysis configured show host_of btc (answering 1000 narrated) no_maps in
  first = (Ok narrated_response, snd (fst first), [responsesUrl])
  /\ getAIAnalysis configured show host_of btc (answering 11000 narrated) (snd (fst first))
     = (Ok narrated_response, snd (fst first), []).
Proof.
  split; [vm_compute; reflexivity|].
  refine (proj1 (C4_bucketed_narrative_cache
                   configured show host_of 0 no_maps _ btc btc
                   (answering 1000 narrated) (answering 11000 narrated)
                   narrated_response [responsesUrl] _ _ _ _ _) _).
  - apply consistent_empty.
  - repeat split; vm_compute; discriminate.
  - repeat split; vm_compute; discriminate.
  - repeat split.
  - vm_compute; reflexivity.
  - split; vm_compute; reflexivity.
Defined.

(** C7. When the narrative endpoint answers with an output list that holds
    no element of type "message", the call to the endpoint fails on the shape
    of the response (the invalid-response error, or the type error raised on
    the first [null] element), and [getAIAnalysis] leaves the Analysis Cache
    and its companion map as they were; unless an earlier narrative is still
    cached, it fails. *)
Theorem C7_no_message_no_cache_write
    (apiKey : option string) (ToString : value -> string)
    (hostname : value -> option string) (w : World)
    (request : AIAnalysisRequest) (response : response) (data : value)
    (items : list value) :
  has_key apiKey = true ->
  fetch w responsesUrl = Settled response -> ok response = true ->
  body response = Some data ->
  get data "output" = Ok (VArr items) ->
  Forall (fun item => typed_message item = false) items ->
  fst (tryOpenAIWebSearchAPI apiKey ToString hostname w request)
    = Throw (if forallb (fun item => negb (nullish item)) items
             then Error invalid_shape else TypeError)
  /\ forall st,
       snd (fst (getAIAnalysis apiKey ToString hostname request w st)) = st
       /\ (fresh st request w = None ->
           fst (fst (getAIAnalysis apiKey ToString hostname request w st))
           = Throw (Error unavailable)).
Proof.
  intros Hk Hf Hok Hbody Hout Hnone.
  assert (Ha : fst (tryOpenAIWebSearchAPI apiKey ToString hostname w request)
               = Throw (if forallb (fun item => negb (nullish item)) items
                        then Error invalid_shape else TypeError)).
  { rewrite (attempt_settled _ _ _ _ _ _ Hk Hf). simpl.
    eapply no_message_throws; eauto. }
  split; [exact Ha|]. intros st.
  destruct (run_cases apiKey ToString hostname request w st)
    as [(c & Hhit & H)|[(r & _ & Hr & _)|(Hmiss & H)]].
  - rewrite H. simpl. split; [reflexivity|]. congruence.
  - rewrite Ha in Hr. discriminate.
  - rewrite H. simpl. split; reflexivity.
Qed.

Lemma C7_witness :
  tryOpenAIWebSearchAPI configured show host_of (answering 1000 messageless) btc
    = (Throw (Error invalid_shape), [responsesUrl])
  /\ getAIAnalysis configured show host_of btc (answering 1000 messageless) no_maps
     = (Throw (Error unavailable), no_maps, [responsesUrl]).
Proof.
  destruct (C7_no_message_no_cache_write
              configured show host_of (answering 1000 messageless) btc
              (Response 200 "OK" (Some messageless)) messageless messageless_items)
    as [Ha Hrun]; try (vm_compute; reflexivity).
  { repeat constructor. }
  destruct (Hrun no_maps) as [Hst Hres].
  split; [vm_compute; reflexivity|].
  specialize (Hres eq_refl).
  destruct (getAIAnalysis configured show host_of btc (answering 1000 messageless) no_maps)
    as [[res st'] sent] eqn:E.
  simpl in Hst, Hres. subst.
  f_equal. change sent with (snd (Throw (A := AIAnalysisResponse) (Error unavailable), no_maps, sent)).
  rewrite <- E. vm_compute. reflexivity.
Defined.

End NarrativeClaims.

(** * Claims about failures and about calls ten seconds apart *)
Section SurfaceClaims.
Import JS Narrative Notions Desk.

(** C8, as stated, fails: with no credential configured the underlying error
    reads "OpenAI API key not configured", and the message the panel shows is
    the fixed text of [getAIAnalysis], a different string. *)
Lemma C8_counterexample :
  fst (tryOpenAIWebSearchAPI None show host_of (answering 1000 narrated) btc)
    = Throw (Error key_missing)
  /\ Panel.error
       (fst (fst (Panel.fetchAnalysis None show host_of engine_text btc_props
                                      (answering 1000 narrated) no_maps idle)))
     = Some unavailable
  /\ unavailable <> key_missing.
Proof. repeat split; try (vm_compute; reflexivity). discriminate. Qed.

(** C8, amended. Whenever [getAIAnalysis] fails, the error it throws is the
    fixed "service is currently unavailable" text, both maps are untouched,
    and the panel shows exactly that text, keeps the narrative cell as it
    was and renders no narrative; and every failure of the upstream call,
    of whatever kind, makes [getAIAnalysis] fail in this way when no
    narrative is cached. *)
Theorem C8_failure_shows_fixed_message
    (apiKey : option string) (ToString : value -> string)
    (hostname : value -> option string) (engine_message : JS.error -> string)
    (p : Panel.Props) (w : World) (st : Store) (ui : Panel.State) :
  let request :=
    mkRequest (Panel.cryptoName p) (Panel.symbol p) (Panel.currentPrice p)
              (Panel.priceChangePercent24h p) (Panel.marketCap p) (Panel.volume24h p) in
  let outcome := getAIAnalysis apiKey ToString hostname request w st in
  Qeq_bool (Panel.currentPrice p) 0 = false ->
  Panel.cryptoName p <> "" ->
  (forall e, fst (fst outcome) = Throw e ->
     e = Error unavailable
     /\ snd (fst outcome) = st
     /\ Panel.fetchAnalysis apiKey ToString hostname engine_message p w st ui
        = (Panel.mkState (Panel.analysis ui) (Panel.sources ui) false (Some unavailable),
           st, snd outcome)
     /\ Panel.shows_narrative
          (fst (fst (Panel.fetchAnalysis apiKey ToString hostname engine_message p w st ui)))
        = false)
  /\ (forall e0,
        fresh st request w = None ->
        fst (tryOpenAIWebSearchAPI apiKey ToString hostname w request) = Throw e0 ->
        fst (fst outcome) = Throw (Error unavailable)).
Proof.
  intros request outcome Hprice Hname. subst outcome. split.
  - intros e He.
    assert (Hrun : getAIAnalysis apiKey ToString hostname request w st
                   = (Throw (Error unavailable), st,
                      snd (getAIAnalysis apiKey ToString hostname request w st))).
    { destruct (run_cases apiKey ToString hostname request w st)
        as [(c & _ & H)|[(r & _ & _ & _ & _ & H)|(_ & H)]];
        rewrite H in He |- *; simpl in *; [discriminate|discriminate|reflexivity]. }
    assert (Hpanel :
      Panel.fetchAnalysis apiKey ToString hostname engine_message p w st ui
      = (Panel.mkState (Panel.analysis ui) (Panel.sources ui) false (Some unavailable),
         st, snd (getAIAnalysis apiKey ToString hostname request w st))).
    { unfold Panel.fetchAnalysis. rewrite Hprice.
      apply String.eqb_neq in Hname. rewrite Hname. simpl.
      fold request. rewrite Hrun. reflexivity. }
    rewrite Hrun in He. simpl in He. injection He as <-.
    repeat split.
    + now rewrite Hrun.
    + exact Hpanel.
    + rewrite Hpanel. simpl. unfold Panel.shows_narrative. simpl.
      now rewrite !andb_false_r.
  - intros e0 Hmiss Hfail.
    rewrite (run_failed apiKey ToString hostname request w st Hmiss); [reflexivity|].
    intros r Hr. congruence.
Qed.

Lemma C8_witness :
  Panel.fetchAnalysis None show host_of engine_text btc_props
                      (answering 1000 narrated) no_maps idle
  = (Panel.mkState "" [] false (Some unavailable), no_maps, []).
Proof.
  destruct (C8_failure_shows_fixed_message
              None show host_of engine_text btc_props
              (answering 1000 narrated) no_maps idle) as [Hfail _].
  - vm_compute; reflexivity.
  - discriminate.
  - destruct (Hfail (Error unavailable)) as (_ & _ & Hpanel & _).
    + vm_compute; reflexivity.
    + rewrite Hpanel. vm_compute. reflexivity.
Defined.

(** C9, as stated, fails: calls at 295.000 s and 305.000 s are ten seconds
    apart and carry the same inputs, the first succeeds, and each of them
    issues a request, because the key of the second names the next bucket. *)
Lemma C9_counterexample :
  let first :=
    getAIAnalysis configured show host_of btc (answering 295000 narrated) no_maps in
  let second :=
    getAIAnalysis configured show host_of btc (answering 305000 narrated) (snd (fst first)) in
  now_for_key (answering 305000 narrated) = now_for_key (answering 295000 narrated) + 10000
  /\ now (answering 305000 narrated) = now (answering 295000 narrated) + 10000
  /\ fst (fst first) = Ok narrated_response
  /\ (snd first ++ snd second)%list = [responsesUrl; responsesUrl]
  /\ length (snd first ++ snd second)%list <> 1%nat.
Proof. repeat split; try (vm_compute; reflexivity). vm_compute. discriminate. Qed.

(** C9, amended. Two calls ten seconds apart with the same inputs, the first
    of which goes upstream and succeeds, issue exactly one request in total
    when the second falls into the same 5-minute bucket as the first: the
    second is answered from the cache with the first one's narrative. *)
Theorem C9_ten_seconds_within_one_bucket
    (apiKey : option string) (ToString : value -> string)
    (hostname : value -> option string) (request : AIAnalysisRequest)
    (w1 w2 : World) (st0 st1 : Store) (r1 : AIAnalysisResponse) :
  now_for_key w2 = now_for_key w1 + 10000 ->
  now w2 = now w1 + 10000 ->
  getAIAnalysis apiKey ToString hostname request w1 st0 = (Ok r1, st1, [responsesUrl]) ->
  bucket (now_for_key w2) = bucket (now_for_key w1) ->
  getAIAnalysis apiKey ToString hostname request w2 st1 = (Ok r1, st1, [])
  /\ length ([responsesUrl]
             ++ snd (getAIAnalysis apiKey ToString hostname request w2 st1))%list = 1%nat.
Proof.
  intros Hk Hn Hrun Hb.
  assert (Hhit : getAIAnalysis apiKey ToString hostname request w2 st1 = (Ok r1, st1, [])).
  { destruct (run_cases apiKey ToString hostname request w1 st0)
      as [(c & _ & H)|[(r & _ & _ & _ & _ & H)|(_ & H)]];
      rewrite H in Hrun; [discriminate| |discriminate].
    injection Hrun as <- <-.
    change (Ok r) with (Ok (data (mkCacheEntry r (now w1)))).
    apply run_hit, fresh_found.
    - simpl. unfold cacheKey. rewrite Hb. apply lookup_insert_eq.
    - simpl. unfold CACHE_DURATION. lia. }
  split; [exact Hhit|]. now rewrite Hhit.
Qed.

Lemma C9_witness :
  let first :=
    getAIAnalysis configured show host_of btc (answering 1000 narrated) no_maps in
  length (snd first
          ++ snd (getAIAnalysis configured show host_of btc (answering 11000 narrated)
                                (snd (fst first))))%list = 1%nat.
Proof.
  assert (Hfirst :
    getAIAnalysis configured show host_of btc (answering 1000 narrated) no_maps
    = (Ok narrated_response,
       snd (fst (getAIAnalysis configured show host_of btc (answering 1000 narrated) no_maps)),
       [responsesUrl])) by (vm_compute; reflexivity).
  destruct (C9_ten_seconds_within_one_bucket
              configured show host_of btc
              (answering 1000 narrated) (answering 11000 narrated) no_maps _
              narrated_response eq_refl eq_refl Hfirst eq_refl) as [_ Hlen].
  cbv zeta. rewrite Hfirst at 1. exact Hlen.
Defined.

End SurfaceClaims.

(** * Further properties of the Market Data Fetcher *)
Section QuoteRuns.
Import JS Quotes Scenario Runs.

Lemma cacheKey_inj (a b : string) : cacheKey a = cacheKey b -> a = b.
Proof. unfold cacheKey. apply (inj (String.app "crypto-")). Qed.

Lemma fresh_after_success cryptoId w1 st newData w2 :
  fresh (mkStore (<[cacheKey cryptoId := mkCacheEntry newData (now w1)]> (cache st))
                 (<[cryptoId := newData]> (lastSuccessfulPrices st)))
        cryptoId w2
  = if now w2 - now w1 <? CACHE_DURATION
    then Some (mkCacheEntry newData (now w1)) else None.
Proof. unfold fresh. simpl. now rewrite lookup_insert_eq. Qed.

(** X1. Within 60 seconds of a successful fetch, a second fetch for the same
    key returns the same payload with no error and leaves both maps alone,
    whatever the network would answer. *)
Theorem quote_served_from_cache_within_ttl cryptoId w1 st newData w2 :
  fresh st cryptoId w1 = None ->
  liveFetch cryptoId w1 = Ok newData ->
  now w2 - now w1 < CACHE_DURATION ->
  let st1 := fst (fetchCryptoData cryptoId w1 st) in
  fetchCryptoData cryptoId w2 st1 = (st1, spread newData false None).
Proof.
  intros Hmiss Hok Hage. rewrite (success_path _ _ _ _ Hmiss Hok). simpl.
  unfold fetchCryptoData at 1. rewrite fresh_after_success.
  apply Z.ltb_lt in Hage. now rewrite Hage.
Qed.

Lemma quote_served_from_cache_within_ttl_witness :
  let st1 := fst (fetchCryptoData "bitcoin" (online 0 "Bitcoin" "btc") empty_store) in
  fetchCryptoData "bitcoin" (offline 59999) st1
  = (st1, spread (online_quote "Bitcoin" "BTC" (VNum 57.3)) false None).
Proof.
  refine (quote_served_from_cache_within_ttl
            "bitcoin" (online 0 "Bitcoin" "btc") empty_store
            (online_quote "Bitcoin" "BTC" (VNum 57.3)) (offline 59999) _ _ _);
    vm_compute; reflexivity.
Defined.

(** X2. Once 60 seconds have passed since the successful fetch, the cached
    entry is ignored: if the live fetch now fails, the payload of that earlier
    success comes back with the staleness notice and both maps stay as they
    were. *)
Theorem quote_stale_after_expiry cryptoId w1 st newData w2 e :
  fresh st cryptoId w1 = None ->
  liveFetch cryptoId w1 = Ok newData ->
  CACHE_DURATION <= now w2 - now w1 ->
  liveFetch cryptoId w2 = Throw e ->
  let st1 := fst (fetchCryptoData cryptoId w1 st) in
  fetchCryptoData cryptoId w2 st1
  = (st1, spread newData false (Some stale_notice)).
Proof.
  intros Hmiss Hok Hage Hfail. rewrite (success_path _ _ _ _ Hmiss Hok). simpl.
  unfold fetchCryptoData at 1. rewrite fresh_after_success.
  apply Z.ltb_ge in Hage. rewrite Hage, Hfail.
  unfold onFailure. simpl. now rewrite lookup_insert_eq.
Qed.

Lemma quote_stale_after_expiry_witness :
  let st1 := fst (fetchCryptoData "bitcoin" (online 0 "Bitcoin" "btc") empty_store) in
  fetchCryptoData "bitcoin" (offline 60000) st1
  = (st1, spread (online_quote "Bitcoin" "BTC" (VNum 57.3)) false (Some stale_notice)).
Proof.
  refine (quote_stale_after_expiry
            "bitcoin" (online 0 "Bitcoin" "btc") empty_store
            (online_quote "Bitcoin" "BTC" (VNum 57.3)) (offline 60000) NetworkError
            _ _ _ _);
    vm_compute; solve [reflexivity | discriminate].
Defined.

(** X3. The refresh timer never hits the entry an earlier tick wrote: a tick
    that runs [k] intervals (k >= 1) or more after a successful fetch finds
    the entry expired, so it goes to the network and ends either with a new
    payload in both maps or with the old payload and the staleness notice. *)
Theorem refresh_tick_goes_to_network cryptoId w1 st newData w2 k :
  fresh st cryptoId w1 = None ->
  liveFetch cryptoId w1 = Ok newData ->
  1 <= k ->
  now w1 + k * Refresh.INTERVAL <= now w2 ->
  let st1 := fst (fetchCryptoData cryptoId w1 st) in
  fresh st1 cryptoId w2 = None
  /\ fetchCryptoData cryptoId w2 st1
     = match liveFetch cryptoId w2 with
       | Ok q =>
           (mkStore (<[cacheKey cryptoId := mkCacheEntry q (now w2)]> (cache st1))
                    (<[cryptoId := q]> (lastSuccessfulPrices st1)),
            spread q false None)
       | Throw _ => (st1, spread newData false (Some stale_notice))
       end.
Proof.
  intros Hmiss Hok Hk Hnow. rewrite (success_path _ _ _ _ Hmiss Hok). simpl.
  assert (Hexp : fresh (mkStore (<[cacheKey cryptoId := mkCacheEntry newData (now w1)]> (cache st))
                                (<[cryptoId := newData]> (lastSuccessfulPrices st)))
                       cryptoId w2 = None).
  { rewrite fresh_after_success.
    assert (Hge : CACHE_DURATION <= now w2 - now w1)
      by (unfold CACHE_DURATION, Refresh.INTERVAL in *; lia).
    apply Z.ltb_ge in Hge. now rewrite Hge. }
  split; [exact Hexp|].
  unfold fetchCryptoData at 1. rewrite Hexp.
  destruct (liveFetch cryptoId w2); [reflexivity|].
  unfold onFailure. simpl. now rewrite lookup_insert_eq.
Qed.

Lemma refresh_tick_goes_to_network_witness :
  let st1 := fst (fetchCryptoData "bitcoin" (online 0 "Bitcoin" "btc") empty_store) in
  fresh st1 "bitcoin" (offline 120000) = None
  /\ fetchCryptoData "bitcoin" (offline 120000) st1
     = (st1, spread (online_quote "Bitcoin" "BTC" (VNum 57.3)) false (Some stale_notice)).
Proof.
  refine (refresh_tick_goes_to_network
            "bitcoin" (online 0 "Bitcoin" "btc") empty_store
            (online_quote "Bitcoin" "BTC" (VNum 57.3)) (offline 120000) 1
            _ _ _ _);
    vm_compute; solve [reflexivity | discriminate].
Defined.

(** One call keeps the two maps in step. *)
Lemma agree_step cryptoId w st :
  agree st -> agree (fst (fetchCryptoData cryptoId w st)).
Proof.
  intros Hag. unfold fetchCryptoData.
  destruct (fresh st cryptoId w); [exact Hag|].
  destruct (liveFetch cryptoId w) as [newData|]; [|exact Hag].
  intros k e. simpl.
  destruct (decide (cryptoId = k)) as [<-|Hne].
  - rewrite !lookup_insert_eq. now intros [= <-].
  - rewrite !lookup_insert_ne; [apply Hag|congruence|].
    intros Heq. apply cacheKey_inj in Heq. congruence.
Qed.

Lemma agree_replay calls st : agree st -> agree (replay calls st).
Proof.
  revert st. induction calls as [|c calls IH]; intros st Hag; [exact Hag|].
  simpl. apply IH, agree_step, Hag.
Qed.

(** X4. After any series of fetches starting from empty maps, an entry of the
    Freshness Cache that is still fresh carries exactly the payload the
    Fallback Store holds for that key, and that payload is what the next
    fetch returns. *)
Theorem cache_hit_equals_fallback_entry calls cryptoId w cached :
  let st := replay calls empty_store in
  fresh st cryptoId w = Some cached ->
  lastSuccessfulPrices st !! cryptoId = Some (data cached)
  /\ fetchCryptoData cryptoId w st = (st, spread (data cached) false None).
Proof.
  intros st Hf. split.
  - assert (Hag : agree st).
    { apply agree_replay. intros k e H. simpl in H. now rewrite lookup_empty in H. }
    apply Hag. unfold fresh in Hf.
    destruct (cache st !! cacheKey cryptoId) as [c|]; [|discriminate].
    destruct (now w - timestamp c <? CACHE_DURATION); congruence.
  - unfold fetchCryptoData. now rewrite Hf.
Qed.

Lemma cache_hit_equals_fallback_entry_witness :
  let st := replay [("bitcoin", online 0 "Bitcoin" "btc"); ("solana", offline 10)]
                   empty_store in
  lastSuccessfulPrices st !! "bitcoin" = Some (online_quote "Bitcoin" "BTC" (VNum 57.3))
  /\ fetchCryptoData "bitcoin" (offline 20) st
     = (st, spread (online_quote "Bitcoin" "BTC" (VNum 57.3)) false None).
Proof.
  refine (cache_hit_equals_fallback_entry
            [("bitcoin", online 0 "Bitcoin" "btc"); ("solana", offline 10)]
            "bitcoin" (offline 20)
            (mkCacheEntry (online_quote "Bitcoin" "BTC" (VNum 57.3)) 0) _).
  vm_compute. reflexivity.
Defined.

Lemma fallback_kept_step cryptoId w st k :
  is_Some (lastSuccessfulPrices st !! k) ->
  is_Some (lastSuccessfulPrices (fst (fetchCryptoData cryptoId w st)) !! k).
Proof.
  intros Hk. unfold fetchCryptoData.
  destruct (fresh st cryptoId w); [exact Hk|].
  destruct (liveFetch cryptoId w) as [newData|]; [|exact Hk].
  simpl. destruct (decide (cryptoId = k)) as [<-|Hne].
  - rewrite lookup_insert_eq. eauto.
  - now rewrite lookup_insert_ne.
Qed.

Lemma fallback_kept_replay calls st k :
  is_Some (lastSuccessfulPrices st !! k) ->
  is_Some (lastSuccessfulPrices (replay calls st) !! k).
Proof.
  revert st. induction calls as [|c calls IH]; intros st Hk; [exact Hk|].
  simpl. apply IH, fallback_kept_step, Hk.
Qed.

(** X5. The Fallback Store never forgets a key: once it holds an entry for a
    key, then after any further series of fetches (for any keys, with any
    outcomes) it still holds one, and a fetch for that key never shows the
    demo-data notice again. *)
Theorem demo_notice_never_returns calls st k q w :
  lastSuccessfulPrices st !! k = Some q ->
  is_Some (lastSuccessfulPrices (replay calls st) !! k)
  /\ error (snd (fetchCryptoData k w (replay calls st))) <> Some demo_notice.
Proof.
  intros Hq.
  assert (Hk : is_Some (lastSuccessfulPrices (replay calls st) !! k))
    by (apply fallback_kept_replay; eauto).
  split; [exact Hk|]. destruct Hk as [q' Hq'].
  unfold fetchCryptoData.
  destruct (fresh _ k w); [discriminate|].
  destruct (liveFetch k w); [discriminate|].
  simpl. unfold onFailure. rewrite Hq'. discriminate.
Qed.

Lemma demo_notice_never_returns_witness :
  error (snd (fetchCryptoData "bitcoin" (offline 500000)
                (replay [("solana", offline 100); ("bitcoin", offline 200)]
                        store_with_last)))
  <> Some demo_notice.
Proof.
  refine (proj2 (demo_notice_never_returns
                   [("solana", offline 100); ("bitcoin", offline 200)]
                   store_with_last "bitcoin" remembered (offline 500000) _)).
  vm_compute. reflexivity.
Defined.

(** X6. A fetch for one key leaves the entries of every other key, in both
    maps, exactly as they were. *)
Theorem fetch_touches_only_its_key cryptoId w st k :
  k <> cryptoId ->
  let st' := fst (fetchCryptoData cryptoId w st) in
  cache st' !! cacheKey k = cache st !! cacheKey k
  /\ lastSuccessfulPrices st' !! k = lastSuccessfulPrices st !! k.
Proof.
  intros Hne. unfold fetchCryptoData.
  destruct (fresh st cryptoId w); [split; reflexivity|].
  destruct (liveFetch cryptoId w) as [newData|]; [|split; reflexivity].
  simpl. rewrite !lookup_insert_ne; [split; reflexivity|congruence|].
  intros Heq. apply cacheKey_inj in Heq. congruence.
Qed.

Lemma fetch_touches_only_its_key_witness :
  lastSuccessfulPrices
    (fst (fetchCryptoData "solana" (online 5 "Solana" "sol") store_with_last))
    !! "bitcoin"
  = lastSuccessfulPrices store_with_last !! "bitcoin".
Proof.
  refine (proj2 (fetch_touches_only_its_key
                   "solana" (online 5 "Solana" "sol") store_with_last "bitcoin" _)).
  discriminate.
Defined.

(** X7. What the notice says about where the quote came from: the demo
    notice appears only when the live fetch failed and the Fallback Store had
    nothing for the key; the staleness notice only when the live fetch
    failed and the quote is the Fallback Store's; no notice only on a cache
    hit or a live success. The loading flag is always cleared. *)
Theorem notice_tells_provenance cryptoId w st :
  let shown := snd (fetchCryptoData cryptoId w st) in
  loading shown = false
  /\ (error shown = Some demo_notice ->
      fresh st cryptoId w = None
      /\ (exists e, liveFetch cryptoId w = Throw e)
      /\ lastSuccessfulPrices st !! cryptoId = None)
  /\ (error shown = Some stale_notice ->
      fresh st cryptoId w = None
      /\ (exists e, liveFetch cryptoId w = Throw e)
      /\ exists q, lastSuccessfulPrices st !! cryptoId = Some q
                   /\ shown = spread q false (Some stale_notice))
  /\ (error shown = None ->
      (exists cached, fresh st cryptoId w = Some cached)
      \/ (exists q, liveFetch cryptoId w = Ok q))
  /\ (error shown = None \/ error shown = Some stale_notice
      \/ error shown = Some demo_notice).
Proof.
  unfold fetchCryptoData.
  destruct (fresh st cryptoId w) as [c|] eqn:Hf; simpl.
  { repeat split; try discriminate; eauto. }
  destruct (liveFetch cryptoId w) as [q|e] eqn:Hl; simpl.
  { repeat split; try discriminate; eauto. }
  unfold onFailure.
  destruct (lastSuccessfulPrices st !! cryptoId) as [q|] eqn:Hq; simpl.
  - repeat split; try discriminate; eauto.
  - repeat split; try discriminate; eauto.
Qed.

End QuoteRuns.

(** * The shape of the responses the Market Data Fetcher accepts *)
Section QuoteShapes.
Import JS Quotes Scenario Runs Notions.

(** X8. The merge succeeds exactly when the snapshot, its [market_data] and
    the [current_price], [market_cap] and [total_volume] objects under it are
    present and the symbol is a string; it then copies the leaves as they
    are, absent ones as [undefined], and stores the symbol as the runtime's
    [toUpperCase] returns it. In every other case it throws a type error. *)
Theorem mergeQuote_accepts_exactly_well_shaped up cryptoData dominance :
  mergeQuote up cryptoData dominance
  = if well_shaped cryptoData then
      let market_data := field cryptoData "market_data" in
      Ok (mkQuote (field (field market_data "current_price") "usd")
                  (field market_data "price_change_24h")
                  (field market_data "price_change_percentage_24h")
                  (field (field market_data "market_cap") "usd")
                  (field (field market_data "total_volume") "usd")
                  dominance
                  (field market_data "circulating_supply")
                  (field cryptoData "name")
                  (VStr (up (symbol_text cryptoData))))
    else Throw TypeError.
Proof.
  unfold mergeQuote, well_shaped, symbol_text, field.
  destruct cryptoData as [| | | | | |props]; try reflexivity.
  simpl.
  destruct (own_property "market_data" props) as [| | | | | |md]; try reflexivity.
  simpl.
  destruct (own_property "current_price" md); simpl; try reflexivity;
    destruct (own_property "market_cap" md); simpl; try reflexivity;
    destruct (own_property "total_volume" md); simpl; try reflexivity;
    destruct (own_property "symbol" props); simpl; reflexivity.
Qed.

Lemma truthy_or_else a b : truthy b = true -> truthy (or_else a b) = true.
Proof. intros Hb. unfold or_else. now destruct (truthy a) eqn:Ha. Qed.

(** X9. For the two keys the code looks up in the global payload, a
    successful fetch whose global-totals response was OK never yields a
    dominance of 0 (nor a missing one): a zero or absent entry is replaced by
    the built-in default. With a non-OK global response the dominance is 0. *)
Theorem listed_key_dominance_is_never_zero cryptoId w q g :
  cryptoId = "bitcoin" \/ cryptoId = "ethereum" ->
  liveFetch cryptoId w = Ok q ->
  fetch w globalUrl = Settled g ->
  (ok g = true -> truthy (q_dominance q) = true)
  /\ (ok g = false -> q_dominance q = num 0).
Proof.
  intros Hid Hok Hg.
  destruct (liveFetch_Ok _ _ _ Hok) as (r & c & d & _ & _ & _ & Hd & Hm).
  apply mergeQuote_dominance in Hm. rewrite Hm. clear Hm Hok.
  unfold fetchDominance in Hd. rewrite Hg in Hd. simpl in Hd.
  destruct (ok g).
  - split; [intros _|discriminate].
    apply bind_Ok in Hd. destruct Hd as (globalData & _ & Hd).
    destruct Hid as [-> | ->]; simpl in Hd;
      repeat (apply bind_Ok in Hd; destruct Hd as (? & _ & Hd));
      injection Hd as <-; now apply truthy_or_else.
  - split; [discriminate|intros _]. congruence.
Qed.

Lemma listed_key_dominance_is_never_zero_witness :
  truthy (q_dominance (online_quote "Bitcoin" "BTC" (VNum 57.3))) = true.
Proof.
  refine (proj1 (listed_key_dominance_is_never_zero
                   "bitcoin" (online 0 "Bitcoin" "btc")
                   (online_quote "Bitcoin" "BTC" (VNum 57.3))
                   (Response 200 "OK" (Some totals)) (or_introl eq_refl) _ _) _);
    vm_compute; reflexivity.
Defined.

(** X10. Every asset the header offers has a demo quote of its own: when the
    live fetch fails and nothing was ever stored for it, the quote shown
    carries that asset's name and ticker as the header spells them, with the
    demo-data notice. *)
Theorem selectable_asset_has_own_demo_quote c w st e :
  In c Header.cryptos ->
  fresh st (Header.id c) w = None ->
  liveFetch (Header.id c) w = Throw e ->
  lastSuccessfulPrices st !! Header.id c = None ->
  let shown := snd (fetchCryptoData (Header.id c) w st) in
  name shown = VStr (Header.name c)
  /\ symbol shown = VStr (Header.symbol c)
  /\ error shown = Some demo_notice.
Proof.
  intros Hin Hmiss Hfail Hnone.
  rewrite (failure_path _ _ _ _ Hmiss Hfail). unfold onFailure. rewrite Hnone.
  clear Hmiss Hfail Hnone. simpl in Hin.
  destruct Hin as [<-|[<-|[<-|[]]]]; repeat split.
Qed.

Lemma selectable_asset_has_own_demo_quote_witness :
  symbol (snd (fetchCryptoData "solana" (offline 0) empty_store)) = VStr "SOL".
Proof.
  refine (proj1 (proj2 (selectable_asset_has_own_demo_quote
                          (Header.mkCrypto "solana" "Solana" "SOL")
                          (offline 0) empty_store NetworkError _ _ _ _)));
    try (vm_compute; reflexivity).
  simpl. auto.
Defined.

(** X11. Whatever the asset and whatever the snapshot request returned, a
    global-totals request that is rejected, or answered OK with a body that
    is not JSON, makes the fetch take the failure path: neither map is
    written and the quote comes with a notice. This holds even for assets
    whose dominance does not come from that payload. *)
Theorem unusable_global_totals_discard_snapshot cryptoId w st :
  fresh st cryptoId w = None ->
  (fetch w globalUrl = Rejected
   \/ exists g, fetch w globalUrl = Settled g /\ ok g = true /\ body g = None) ->
  fst (fetchCryptoData cryptoId w st) = st
  /\ error (snd (fetchCryptoData cryptoId w st)) <> None.
Proof.
  intros Hmiss Hg.
  assert (Hfail : exists e, liveFetch cryptoId w = Throw e).
  { destruct (liveFetch cryptoId w) as [q|e] eqn:Hl; [|eauto].
    destruct (liveFetch_Ok _ _ _ Hl) as (_ & _ & d & _ & _ & _ & Hd & _).
    unfold fetchDominance, json in Hd.
    destruct Hg as [Hg|(g & Hg & Hok & Hb)]; rewrite Hg in Hd; simpl in Hd;
      [discriminate|]. rewrite Hok, Hb in Hd. discriminate. }
  destruct Hfail as [e Hfail].
  rewrite (failure_path _ _ _ _ Hmiss Hfail). simpl. split; [reflexivity|].
  unfold onFailure. destruct (lastSuccessfulPrices st !! cryptoId); discriminate.
Qed.

Lemma unusable_global_totals_discard_snapshot_witness :
  fst (fetchCryptoData "solana" (global_unreachable 0 "Solana" "sol") empty_store)
  = empty_store.
Proof.
  refine (proj1 (unusable_global_totals_discard_snapshot
                   "solana" (global_unreachable 0 "Solana" "sol") empty_store _ _)).
  - vm_compute; reflexivity.
  - left. vm_compute; reflexivity.
Defined.

End QuoteShapes.

(** * Further properties of the Narrative Fetcher *)
Section NarrativeParsing.
Import JS Narrative Notions Runs Desk Cases.
Variable ToString : value -> string.
Variable hostname : value -> option string.

Local Abbreviation read := (readResponse ToString hostname).

(** X12. [find] stops at the first element whose type is "message": elements
    before it must not be null, elements after it are never looked at, be
    they null or further messages. *)
Theorem first_message_is_chosen (before after : list value) (message : value) :
  Forall (fun item => nullish item = false /\ typed_message item = false) before ->
  typed_message message = true ->
  find_message (before ++ message :: after) = Ok message.
Proof.
  intros Hbefore Hmsg. induction Hbefore as [|item before [Hnn Hnm] _ IH].
  - simpl. destruct message; simpl in *; try discriminate.
    now rewrite Hmsg.
  - simpl. destruct item; simpl in *; try discriminate; try exact IH.
    now rewrite Hnm.
Qed.


Lemma append_empty_r (s : string) : s +:+ "" = s.
Proof.
  induction s as [|c s IH]; [reflexivity|].
  change (String c (s +:+ "") = String c s). now rewrite IH.
Qed.

(** X13. Text parts are concatenated in the order they come; parts that
    carry no annotations leave the citations collected so far untouched. *)
Theorem text_parts_are_concatenated (texts : list string) (text : string)
        (annotations : list value) :
  collect ToString (map text_part texts) text annotations
  = Ok (fold_left String.append texts text, annotations).
Proof.
  revert text. induction texts as [|s texts IH]; intros text; [reflexivity|].
  simpl. destruct (negb (s =? ""))%string eqn:Hs; simpl.
  - apply IH.
  - apply negb_false_iff, String.eqb_eq in Hs. subst s.
    rewrite append_empty_r. apply IH.
Qed.


Lemma get_Throw (v : value) (k : string) (e : error) :
  get v k = Throw e -> e = TypeError.
Proof. destruct v; simpl; congruence. Qed.

Lemma cite_Throw (annotations : list value) (e : error) :
  cite hostname annotations = Throw e -> e = TypeError.
Proof.
  induction annotations as [|a annotations IH]; simpl; [discriminate|].
  destruct (get a "type") as [t|e1] eqn:Ht; simpl;
    [|intros [= <-]; eapply get_Throw; eauto].
  destruct (get a "url_citation") as [uc|e2] eqn:Hu; simpl;
    [|intros [= <-]; eapply get_Throw; eauto].
  destruct (is_string t "url_citation" && truthy uc); [|exact IH].
  destruct (get uc "title") as [ti|e3] eqn:Hti; simpl;
    [|intros [= <-]; eapply get_Throw; eauto].
  destruct (get uc "url") as [u|e4] eqn:Hurl; simpl;
    [|intros [= <-]; eapply get_Throw; eauto].
  destruct (hostname u); simpl; [|congruence].
  destruct (cite hostname annotations); simpl; [discriminate|].
  intros [= <-]. now apply IH.
Qed.

Lemma get_field (v x : value) (k : string) : get v k = Ok x -> field v k = x.
Proof. unfold field. now intros ->. Qed.

(** X15. When the sources are built, they are exactly the URL citations
    among the annotations, in order and with repetitions kept; each source
    carries the host name of its URL and a title that is never empty
    ("Source" when the citation has none). *)
Theorem sources_are_the_citations_in_order (annotations : list value)
        (srcs : list Source) :
  cite hostname annotations = Ok srcs ->
  map url srcs = omap citation_url annotations
  /\ Forall (fun s => hostname (url s) = Some (source s)
                      /\ truthy (title s) = true) srcs.
Proof.
  revert srcs. induction annotations as [|a annotations IH]; intros srcs.
  { simpl. intros [= <-]. split; [reflexivity|constructor]. }
  simpl. unfold citation_url at 1.
  destruct (get a "type") as [t|] eqn:Ht; simpl; [|discriminate].
  destruct (get a "url_citation") as [uc|] eqn:Hu; simpl; [|discriminate].
  rewrite (get_field _ _ _ Ht), (get_field _ _ _ Hu).
  destruct (is_string t "url_citation" && truthy uc) eqn:Hc; [|apply IH].
  intros H.
  apply bind_Ok in H. destruct H as (ti & Hti & H).
  apply bind_Ok in H. destruct H as (u & Hurl & H).
  apply bind_Ok in H. destruct H as (h & Hh & H).
  apply bind_Ok in H. destruct H as (more & Hmore & H).
  injection H as <-. destruct (IH more Hmore) as [IH1 IH2].
  rewrite (get_field _ _ _ Hurl). split.
  - simpl. now rewrite IH1.
  - constructor; [|exact IH2]. simpl. split.
    + destruct (hostname u); simpl in Hh; congruence.
    + now apply truthy_or_else.
Qed.

End NarrativeParsing.

Section NarrativeParsingWitnesses.
Import JS Narrative Notions Runs Desk Cases.


Lemma sources_are_the_citations_in_order_witness :
  map url [mkSource (VStr "Source") (VStr "https://example.com/markets") "example.com"]
  = omap citation_url [good_citation].
Proof.
  refine (proj1 (sources_are_the_citations_in_order Desk.host_of
                   [good_citation]
                   [mkSource (VStr "Source") (VStr "https://example.com/markets")
                             "example.com"] _)).
  reflexivity.
Defined.

End NarrativeParsingWitnesses.

(** * What a call of the Narrative Fetcher does to the maps and the network *)
Section NarrativeCalls.
Import JS Narrative Notions Runs Desk Cases.
Variable apiKey : option string.
Variable ToString : value -> string.
Variable hostname : value -> option string.

Local Abbreviation attempt := (tryOpenAIWebSearchAPI apiKey ToString hostname).
Local Abbreviation read := (readResponse ToString hostname).
Local Abbreviation run := (getAIAnalysis apiKey ToString hostname).

Lemma cite_bad (annotations : list value) (a u : value) :
  In a annotations -> citation_url a = Some u -> hostname u = None ->
  exists e, cite hostname annotations = Throw e.
Proof.
  intros Hin Hcit Hhost. induction annotations as [|x annotations IH]; [destruct Hin|].
  simpl.
  destruct (get x "type") as [t|] eqn:Ht; simpl; [|eauto].
  destruct (get x "url_citation") as [uc|] eqn:Hu; simpl; [|eauto].
  destruct Hin as [->|Hin].
  - unfold citation_url in Hcit.
    rewrite (get_field _ _ _ Ht), (get_field _ _ _ Hu) in Hcit.
    destruct (is_string t "url_citation" && truthy uc); [|discriminate].
    injection Hcit as <-.
    destruct (get uc "title"); simpl; [|eauto].
    destruct (get uc "url") as [v|] eqn:Hv; simpl; [|eauto].
    rewrite (get_field _ _ _ Hv) in Hhost. rewrite Hhost. simpl. eauto.
  - destruct (IH Hin) as [e He].
    destruct (is_string t "url_citation" && truthy uc); [|eauto].
    destruct (get uc "title"); simpl; [|eauto].
    destruct (get uc "url") as [v|]; simpl; [|eauto].
    destruct (hostname v); simpl; [|eauto].
    rewrite He. simpl. eauto.
Qed.

(** X16. One citation whose URL cannot be parsed costs the whole narrative:
    the text has been extracted, yet the call fails, [getAIAnalysis] throws
    its fixed error and writes nothing. *)
Theorem one_bad_citation_discards_narrative
        (w : World) (request : AIAnalysisRequest) (st : Store)
        (response : response) (data output message : value)
        (parts annotations : list value) (text : string) (a u : value) :
  has_key apiKey = true ->
  fetch w responsesUrl = Settled response -> ok response = true ->
  body response = Some data -> get data "output" = Ok output ->
  find_in_output output = Ok message -> truthy message = true ->
  get message "content" = Ok (VArr parts) ->
  collect ToString parts "" [] = Ok (text, annotations) ->
  In a annotations -> citation_url a = Some u -> hostname u = None ->
  fresh st request w = None ->
  run request w st = (Throw (Error unavailable), st, [responsesUrl]).
Proof.
  intros Hk Hf Hok Hb Hout Hfind Htr Hcont Hcol Hin Hcit Hhost Hmiss.
  assert (Hread : exists e, read response = Throw e).
  { unfold readResponse, json. rewrite Hok, Hb. simpl. rewrite Hout. simpl.
    rewrite Hfind. simpl. rewrite Htr, Hcont. simpl. rewrite Hcol. simpl.
    destruct (blank text); simpl; [eauto|].
    destruct (cite_bad annotations a u Hin Hcit Hhost) as [e He].
    rewrite He. simpl. eauto. }
  destruct Hread as [e He].
  rewrite (run_failed apiKey ToString hostname request w st Hmiss).
  - now rewrite attempt_sent, Hk.
  - intros r Hr. rewrite (attempt_settled _ _ _ _ _ _ Hk Hf) in Hr.
    simpl in Hr. congruence.
Qed.

(** X17. For a non-success status the error raised inside names the status
    code and the upstream message: the message of the body's [error] object
    when it is a non-empty string, "Unknown error" when the body is not
    JSON. *)
Theorem status_error_names_code_and_message (response : response) :
  ok response = false ->
  (body response = None ->
   read response
   = Throw (Error ("OpenAI API error: " +:+ pretty (status response)
                   +:+ " - Unknown error")))
  /\ (forall data e m,
        body response = Some data -> get data "error" = Ok e ->
        get_opt e "message" = Ok (VStr m) -> m <> "" ->
        read response
        = Throw (Error ("OpenAI API error: " +:+ pretty (status response)
                        +:+ " - " +:+ m))).
Proof.
  intros Hok. unfold readResponse, statusError. rewrite Hok. simpl. split.
  - intros ->. reflexivity.
  - intros data e m -> He Hm Hne. rewrite He. simpl. rewrite Hm. simpl.
    unfold or_else. simpl. apply String.eqb_neq in Hne. now rewrite Hne.
Qed.

Lemma read_Ok (response : response) (r : AIAnalysisResponse) :
  read response = Ok r ->
  isRealAnalysis r = true /\ blank (analysis r) = false.
Proof.
  unfold readResponse. destruct (negb (ok response)).
  { unfold statusError. intros H.
    apply bind_Ok in H. destruct H as (? & _ & H).
    apply bind_Ok in H. destruct H as (? & _ & H). discriminate. }
  intros H.
  apply bind_Ok in H. destruct H as (data & _ & H).
  apply bind_Ok in H. destruct H as (output & _ & H).
  apply bind_Ok in H. destruct H as (message & _ & H).
  destruct (truthy message); [|discriminate].
  apply bind_Ok in H. destruct H as (content & _ & H).
  destruct content; try discriminate.
  apply bind_Ok in H. destruct H as (collected & _ & H).
  destruct (blank (fst collected)) eqn:Hb; simpl in H; [discriminate|].
  apply bind_Ok in H. destruct H as (srcs & _ & H).
  injection H as <-. simpl. auto.
Qed.

Lemma attempt_Ok (w : World) (request : AIAnalysisRequest) (r : AIAnalysisResponse) :
  fst (attempt w request) = Ok r ->
  isRealAnalysis r = true /\ blank (analysis r) = false.
Proof.
  unfold tryOpenAIWebSearchAPI. destruct (has_key apiKey); simpl; [|discriminate].
  intros H. apply bind_Ok in H. destruct H as (response & _ & H).
  now apply read_Ok in H.
Qed.

Lemma returned_text_not_blank
        (request : AIAnalysisRequest) (w : World) (st st' : Store)
        (r : AIAnalysisResponse) (sent : list string) :
  genuine st ->
  run request w st = (Ok r, st', sent) ->
  blank (analysis r) = false.
Proof.
  intros Hg Hrun.
  destruct (run_cases apiKey ToString hostname request w st)
    as [(c & Hf & H)|[(r' & _ & Ha & _ & _ & H)|(_ & H)]];
    rewrite H in Hrun; [| |discriminate]; injection Hrun as <- <- <-.
  - apply fresh_Some in Hf as [Hl _]. exact (proj2 (Hg _ _ Hl)).
  - exact (proj2 (attempt_Ok _ _ _ Ha)).
Qed.

(** X18. Every narrative [getAIAnalysis] returns, fresh or cached, is marked
    real and has text that is not blank, provided the cache held only such
    narratives before; and it holds only such narratives afterwards. *)
Theorem returned_narrative_is_genuine
        (request : AIAnalysisRequest) (w : World) (st st' : Store)
        (result : exn AIAnalysisResponse) (sent : list string) :
  genuine st ->
  run request w st = (result, st', sent) ->
  genuine st'
  /\ forall r, result = Ok r ->
       isRealAnalysis r = true /\ blank (analysis r) = false.
Proof.
  intros Hg Hrun.
  destruct (run_cases apiKey ToString hostname request w st)
    as [(c & Hf & H)|[(r' & _ & Ha & _ & _ & H)|(_ & H)]];
    rewrite H in Hrun; injection Hrun as <- <- <-.
  - split; [exact Hg|]. intros r [= <-].
    apply fresh_Some in Hf as [Hl _]. exact (Hg _ _ Hl).
  - pose proof (attempt_Ok _ _ _ Ha) as Hr'. split.
    + intros k e. simpl.
      destruct (decide (cacheKey request (now_for_key w) = k)) as [<-|Hne].
      * rewrite lookup_insert_eq. now intros [= <-].
      * rewrite lookup_insert_ne by exact Hne. apply Hg.
    + now intros r [= <-].
  - split; [exact Hg|]. discriminate.
Qed.

(** X23. In a state reached from empty maps the age test of the cache is
    implied by the key: for a call whose two clock readings fall into one
    bucket, an entry found under the key is always served, so an entry lives
    exactly until the end of the bucket it was created in. *)
Theorem entry_lives_until_its_bucket_ends
        (T : Z) (request : AIAnalysisRequest) (w : World) (st : Store)
        (e : CacheEntry) :
  consistent apiKey T st ->
  0 <= now_for_key w ->
  bucket (now w) = bucket (now_for_key w) ->
  analysisCache st !! cacheKey request (now_for_key w) = Some e ->
  run request w st = (Ok (data e), st, []).
Proof.
  intros [_ Hb] H0 Hsame Hl.
  destruct (Hb request (now_for_key w) e H0 Hl) as [_ Hstart].
  apply run_hit, fresh_found; [exact Hl|].
  pose proof (bucket_end (now w)) as Hend. rewrite Hsame in Hend.
  unfold CACHE_DURATION. lia.
Qed.

(** X19. The map of latest successful analyses is write-only: replacing it
    by any other map changes neither the result of a call, nor the requests
    it issues, nor the Analysis Cache it leaves behind. *)
Theorem latest_map_is_never_read
        (request : AIAnalysisRequest) (w : World) (st : Store)
        (other : gmap string Latest) :
  let st2 := mkStore (analysisCache st) other in
  fst (fst (run request w st2)) = fst (fst (run request w st))
  /\ snd (run request w st2) = snd (run request w st)
  /\ analysisCache (snd (fst (run request w st2)))
     = analysisCache (snd (fst (run request w st))).
Proof.
  unfold getAIAnalysis, fresh. simpl.
  destruct (analysisCache st !! cacheKey request (now_for_key w)) as [c|].
  - destruct (now w - timestamp c <? CACHE_DURATION).
    + repeat split.
    + destruct (attempt w request) as [[r|e] sent]; [|repeat split].
      destruct (negb (analysis r =? ""))%string; repeat split.
  - destruct (attempt w request) as [[r|e] sent]; [|repeat split].
    destruct (negb (analysis r =? ""))%string; repeat split.
Qed.

(** X20. A call issues at most one request, always to the narrative
    endpoint, and none at all when no credential is configured or when the
    cache answers. *)
Theorem at_most_one_request (request : AIAnalysisRequest) (w : World) (st : Store) :
  (snd (run request w st) = [] \/ snd (run request w st) = [responsesUrl])
  /\ (has_key apiKey = false -> snd (run request w st) = [])
  /\ (forall cached, fresh st request w = Some cached -> snd (run request w st) = [])
  /\ (has_key apiKey = true -> fresh st request w = None ->
      snd (run request w st) = [responsesUrl]).
Proof.
  destruct (run_cases apiKey ToString hostname request w st)
    as [(c & Hf & H)|[(r & Hf & _ & _ & Hk & H)|(Hf & H)]]; rewrite H; simpl.
  - repeat split; auto. congruence.
  - repeat split; auto; congruence.
  - rewrite attempt_sent. destruct (has_key apiKey); repeat split; auto; congruence.
Qed.

End NarrativeCalls.

Section NarrativeCallsWitnesses.
Import JS Narrative Notions Runs Desk Cases.

Lemma one_bad_citation_discards_narrative_witness :
  getAIAnalysis configured show host_of btc (answering 1000 badly_cited) no_maps
  = (Throw (Error unavailable), no_maps, [responsesUrl]).
Proof.
  refine (one_bad_citation_discards_narrative
            configured show host_of (answering 1000 badly_cited) btc no_maps
            (Response 200 "OK" (Some badly_cited)) badly_cited
            (VArr [badly_cited_message]) badly_cited_message
            [ VObj [ ("type", VStr "output_text");
                     ("text", VStr "Bitcoin edges higher.");
                     ("annotations", VArr [good_citation; bad_citation]) ] ]
            [good_citation; bad_citation] "Bitcoin edges higher."
            bad_citation (VStr "not a url")
            _ _ _ _ _ _ _ _ _ _ _ _ _);
    try (vm_compute; reflexivity).
  simpl. auto.
Defined.

Lemma status_error_names_code_and_message_witness :
  readResponse show host_of (Response 401 "Unauthorized" None)
  = Throw (Error "OpenAI API error: 401 - Unknown error").
Proof.
  refine (proj1 (status_error_names_code_and_message
                   show host_of (Response 401 "Unauthorized" None) _) _);
    reflexivity.
Defined.

Lemma genuine_empty : genuine no_maps.
Proof. intros k e H. simpl in H. now rewrite lookup_empty in H. Qed.

Lemma returned_narrative_is_genuine_witness :
  isRealAnalysis narrated_response = true
  /\ blank (analysis narrated_response) = false.
Proof.
  refine (proj2 (returned_narrative_is_genuine
                   configured show host_of btc (answering 1000 narrated) no_maps
                   warm (Ok narrated_response) [responsesUrl] genuine_empty _)
                narrated_response eq_refl).
  vm_compute. reflexivity.
Defined.

Lemma warm_is_consistent : consistent configured 1000 warm.
Proof.
  refine (consistent_step configured show host_of 0 no_maps btc
            (answering 1000 narrated) (Ok narrated_response) warm [responsesUrl]
            (consistent_empty _ _) _ _).
  - repeat split; vm_compute; discriminate.
  - vm_compute. reflexivity.
Qed.

Lemma entry_lives_until_its_bucket_ends_witness :
  getAIAnalysis configured show host_of btc (answering 299998 narrated) warm
  = (Ok narrated_response, warm, []).
Proof.
  refine (entry_lives_until_its_bucket_ends
            configured show host_of 1000 btc (answering 299998 narrated) warm
            (mkCacheEntry narrated_response 1001) warm_is_consistent _ _ _).
  - vm_compute; discriminate.
  - vm_compute; reflexivity.
  - vm_compute; reflexivity.
Defined.

End NarrativeCallsWitnesses.

(** * The panel and the wording *)
Section PanelFacts.
Import JS Narrative Notions Runs Desk Cases.

Lemma first_message_is_chosen_witness :
  find_message ([VObj [("type", VStr "web_search_call")]]
                  ++ first_message :: [VNull; second_message])
  = Ok first_message.
Proof.
  refine (first_message_is_chosen
            [VObj [("type", VStr "web_search_call")]] [VNull; second_message]
            first_message _ _).
  - repeat constructor.
  - reflexivity.
Defined.

Lemma blank_nonempty (s : string) : blank s = false -> s <> "".
Proof. intros Hb ->. discriminate. Qed.

(** X21. After the handler has run on usable props (a price other than 0 and
    a name), the panel shows a narrative exactly when [getAIAnalysis]
    returned one, and then it shows that narrative with its sources and no
    error. At all other times the error text is shown instead. *)
Theorem panel_shows_narrative_iff_call_succeeded
        (apiKey : option string) (ToString : value -> string)
        (hostname : value -> option string) (engine_message : JS.error -> string)
        (p : Panel.Props) (w : World) (st : Store) (ui : Panel.State) :
  genuine st ->
  Qeq_bool (Panel.currentPrice p) 0 = false ->
  Panel.cryptoName p <> "" ->
  let result := fst (fst (getAIAnalysis apiKey ToString hostname (Label.request_of p) w st)) in
  let ui' := fst (fst (Panel.fetchAnalysis apiKey ToString hostname engine_message p w st ui)) in
  (Panel.shows_narrative ui' = true <-> exists r, result = Ok r)
  /\ (forall r, result = Ok r ->
        Panel.analysis ui' = analysis r /\ Panel.sources ui' = sources r
        /\ Panel.error ui' = None)
  /\ (forall e, result = Throw e -> Panel.error ui' = Some unavailable).
Proof.
  intros Hg Hprice Hname. unfold Panel.fetchAnalysis, Label.request_of.
  rewrite Hprice. apply String.eqb_neq in Hname. rewrite Hname. simpl.
  destruct (getAIAnalysis apiKey ToString hostname _ w st) as [[result st'] sent] eqn:Hrun.
  simpl. destruct result as [r|e]; simpl.
  - pose proof (returned_text_not_blank _ _ _ _ _ _ _ _ _ Hg Hrun) as Hb.
    apply blank_nonempty, String.eqb_neq in Hb.
    split; [split; [eauto|]|].
    + intros _. unfold Panel.shows_narrative. simpl. now rewrite Hb.
    + split; [|discriminate]. intros r' [= <-]. repeat split.
  - assert (He : e = Error unavailable).
    { destruct (run_cases apiKey ToString hostname
                  (mkRequest (Panel.cryptoName p) (Panel.symbol p) (Panel.currentPrice p)
                             (Panel.priceChangePercent24h p) (Panel.marketCap p)
                             (Panel.volume24h p)) w st)
        as [(c & _ & H)|[(r & _ & _ & _ & _ & H)|(_ & H)]];
        rewrite H in Hrun; congruence. }
    subst e. split; [split|].
    + unfold Panel.shows_narrative. simpl.
      destruct (negb (Panel.analysis ui =? "")%string); discriminate.
    + intros [r Hr]. discriminate.
    + split; [discriminate|]. intros e _. reflexivity.
Qed.

Lemma panel_shows_narrative_iff_call_succeeded_witness :
  Panel.shows_narrative
    (fst (fst (Panel.fetchAnalysis configured show host_of engine_text btc_props
                                   (answering 1000 narrated) no_maps idle)))
  = true.
Proof.
  refine (proj2 (proj1 (panel_shows_narrative_iff_call_succeeded
                          configured show host_of engine_text btc_props
                          (answering 1000 narrated) no_maps idle
                          genuine_empty _ _)) _).
  - vm_compute; reflexivity.
  - discriminate.
  - exists narrated_response. vm_compute. reflexivity.
Defined.

Lemma zero_toFixed2 (c : Q) : (c == 0)%Q -> toFixed2 c = "0.00".
Proof.
  destruct c as [n d]. unfold Qeq. simpl. intros Hn.
  assert (n = 0) by lia. subst n.
  unfold toFixed2, hundredths. cbn [Qnum Qden].
  assert (H : (200 * Z.abs 0 + Z.pos d) / (2 * Z.pos d) = 0)
    by (apply Z.div_small; lia).
  rewrite H. reflexivity.
Qed.

Lemma zero_is_slight (request : AIAnalysisRequest) :
  (priceChangePercent24h request == 0)%Q -> Prompt.intensity request = "slightly".
Proof.
  intros Hz. unfold Prompt.intensity, Prompt.magnitude.
  assert (H5 : Qle_bool (Qabs (priceChangePercent24h request)) 5 = true).
  { apply Qle_bool_iff. rewrite Hz. discriminate. }
  assert (H2 : Qle_bool (Qabs (priceChangePercent24h request)) 2 = true).
  { apply Qle_bool_iff. rewrite Hz. discriminate. }
  now rewrite H5, H2.
Qed.

(** X22. The question on the button and the sentence in the prompt name the
    same direction except when the percent change is exactly 0: then the
    button asks why the asset is falling while the prompt states that it is
    slightly rising by 0.00%. *)
Theorem button_and_prompt_disagree_only_at_zero (p : Panel.Props) :
  (Label.direction p = Prompt.direction (Label.request_of p)
   <-> ~ (Panel.priceChangePercent24h p == 0)%Q)
  /\ ((Panel.priceChangePercent24h p == 0)%Q ->
      Label.ask p
      = "Get AI Analysis: Why is " +:+ Panel.symbol p +:+ " falling today?"
      /\ Prompt.headline (Label.request_of p)
         = Panel.cryptoName p +:+ " is slightly rising today by 0.00%.").
Proof.
  split.
  - unfold Label.direction, Label.isPositive, Prompt.direction, Label.request_of.
    simpl. set (c := Panel.priceChangePercent24h p).
    destruct (Qle_bool c 0) eqn:H1; destruct (Qle_bool 0 c) eqn:H2; simpl.
    + apply Qle_bool_iff in H1, H2.
      assert (Hz : (c == 0)%Q) by (apply Qle_antisym; assumption).
      split; [discriminate|tauto].
    + assert (Hn : ~ (0 <= c)%Q) by (rewrite <- Qle_bool_iff; congruence).
      assert (Hnz : ~ (c == 0)%Q) by (intros Hz; apply Hn; rewrite Hz; apply Qle_refl).
      split; [auto|reflexivity].
    + assert (Hn : ~ (c <= 0)%Q) by (rewrite <- Qle_bool_iff; congruence).
      assert (Hnz : ~ (c == 0)%Q) by (intros Hz; apply Hn; rewrite Hz; apply Qle_refl).
      split; [auto|reflexivity].
    + exfalso.
      assert (Hn1 : ~ (c <= 0)%Q) by (rewrite <- Qle_bool_iff; congruence).
      assert (Hn2 : ~ (0 <= c)%Q) by (rewrite <- Qle_bool_iff; congruence).
      destruct (Qlt_le_dec 0 c) as [Hlt|Hle]; [|contradiction].
      apply Hn2. now apply Qlt_le_weak.
  - intros Hz. split.
    + unfold Label.ask, Label.direction, Label.isPositive.
      assert (H1 : Qle_bool (Panel.priceChangePercent24h p) 0 = true)
        by (apply Qle_bool_iff; rewrite Hz; apply Qle_refl).
      now rewrite H1.
    + unfold Prompt.headline.
      rewrite (zero_is_slight (Label.request_of p) Hz).
      unfold Prompt.direction. simpl.
      assert (H2 : Qle_bool 0 (Panel.priceChangePercent24h p) = true)
        by (apply Qle_bool_iff; rewrite Hz; apply Qle_refl).
      now rewrite H2, (zero_toFixed2 _ Hz).
Qed.

Lemma button_and_prompt_disagree_only_at_zero_witness :
  Label.ask flat_props = "Get AI Analysis: Why is BTC falling today?"
  /\ Prompt.headline (Label.request_of flat_props)
     = "Bitcoin is slightly rising today by 0.00%.".
Proof.
  refine (proj2 (button_and_prompt_disagree_only_at_zero flat_props) _).
  reflexivity.
Defined.

End PanelFacts.

(** * White space outside ASCII *)
Section WhiteSpace.
Import JS Narrative Desk Cases.

(** [trim] also removes the white space that is not ASCII; a letter with a
    diacritic (here U+00E9, bytes 195 169) is not white space. *)
Lemma blank_beyond_ascii :
  blank nbsp = true /\ blank wide_space = true
  /\ blank (nbsp +:+ " " +:+ wide_space) = true
  /\ blank (String (ascii_of_nat 195) (String (ascii_of_nat 169) "")) = false
  /\ blank (nbsp +:+ "x") = false.
Proof. repeat split; vm_compute; reflexivity. Qed.

(** A response whose text is only such white space is refused as having no
    text, and nothing is cached. *)
Lemma hollow_text_is_refused :
  readResponse show host_of (Response 200 "OK" (Some hollow)) = Throw (Error no_text)
  /\ getAIAnalysis configured show host_of btc (answering 1000 hollow) no_maps
     = (Throw (Error unavailable), no_maps, [responsesUrl]).
Proof. split; vm_compute; reflexivity. Qed.

End WhiteSpace.
